(** * fit_bot: back-end/utils.py

    A shallow embedding of the PDF-to-chunks pipeline of
    [back-end/utils.py] and the properties of its three functions
    [extract_text_from_pdf], [tokenize_and_chunk] and [jsonify].

    Python integers are unbounded, so they are [Z].  Text is a [string]
    (a sequence of bytes, UTF-8 for text outside ASCII).  Token ids are
    integers.  The libraries the module calls (pdfplumber, tiktoken, the
    file system, [os.path]) are collected in a record [World]; every call
    on them is logged in a trace, and a call that raises stops the run. *)

From Stdlib Require Import ZArith List String Ascii Bool Lia DecimalString.
Import ListNotations.

Local Open Scope string_scope.
Local Open Scope list_scope.
Local Open Scope Z_scope.

(* ===================================================================== *)
(** ** Python built-ins used by the module *)
(* ===================================================================== *)

Module Py.

(** An exception: its class name and its message, [str(e)]. *)
Record exn : Type := Raise { exn_class : string; exn_msg : string }.

Definition ValueError (msg : string) : exn := Raise "ValueError" msg.
Definition RuntimeError (msg : string) : exn := Raise "RuntimeError" msg.

(** What a function call evaluates to when no value is returned. *)
Inductive value : Type :=
| None_ : value
| Int (n : Z) : value.

Definition len {A : Type} (l : list A) : Z := Z.of_nat (List.length l).

(** [len(range(start, stop, step))] for [step <> 0]. *)
Definition range_length (start stop step : Z) : Z :=
  if 0 <? step then
    if start <? stop then (stop - start - 1) / step + 1 else 0
  else
    if stop <? start then (start - stop - 1) / (- step) + 1 else 0.

(** [range(start, stop, step)]: a zero step raises, a positive step
    counts up while below [stop], a negative one counts down while
    above [stop]. *)
Definition range (start stop step : Z) : exn + list Z :=
  if step =? 0 then inl (ValueError "range() arg 3 must not be zero")
  else inr (map (fun k : nat => start + Z.of_nat k * step)
                (seq 0 (Z.to_nat (range_length start stop step)))).

(** A slice bound brought into [0 .. n]: a negative bound counts from
    the end. *)
Definition adjust_index (n i : Z) : Z :=
  if i <? 0 then Z.max 0 (i + n) else Z.min i n.

(** [l[lo:hi]] *)
Definition slice {A : Type} (l : list A) (lo hi : Z) : list A :=
  let n := len l in
  let a := adjust_index n lo in
  let b := adjust_index n hi in
  firstn (Z.to_nat (b - a)) (skipn (Z.to_nat a) l).

(** [sep.join(parts)] *)
Fixpoint join (sep : string) (parts : list string) : string :=
  match parts with
  | [] => ""
  | [p] => p
  | p :: rest => (p ++ sep ++ join sep rest)%string
  end.

(** [s.startswith(p)] *)
Fixpoint startswith (s p : string) : bool :=
  match p, s with
  | EmptyString, _ => true
  | String _ _, EmptyString => false
  | String a p', String b s' => Ascii.eqb a b && startswith s' p'
  end.

(** The scan of [s.replace(old, new)] for a non-empty [old]: [skip]
    counts the characters of a matched occurrence still to be dropped. *)
Fixpoint replace_scan (old new : string) (skip : nat) (s : string) : string :=
  match s with
  | EmptyString => EmptyString
  | String c s' =>
      match skip with
      | S k => replace_scan old new k s'
      | O =>
          if startswith s old
          then (new ++ replace_scan old new (String.length old - 1) s')%string
          else String c (replace_scan old new 0 s')
      end
  end.

(** With an empty [old], [new] goes before every character and at the
    end. *)
Fixpoint replace_empty (new s : string) : string :=
  match s with
  | EmptyString => new
  | String c s' => (new ++ String c (replace_empty new s'))%string
  end.

(** [s.replace(old, new)]: every non-overlapping occurrence, from the
    left. *)
Definition replace (s old new : string) : string :=
  match old with
  | EmptyString => replace_empty new s
  | String _ _ => replace_scan old new 0 s
  end.

(** The built-in classes that derive from [BaseException] without
    deriving from [Exception]. *)
Definition base_only : list string :=
  ["BaseException"; "BaseExceptionGroup"; "GeneratorExit";
   "KeyboardInterrupt"; "SystemExit"; "CancelledError"].

(** Whether [except Exception] catches the exception. *)
Definition is_Exception (e : exn) : bool :=
  negb (existsb (String.eqb (exn_class e)) base_only).

(** [str(n)] for an integer. *)
Definition str_of_int (n : Z) : string := NilZero.string_of_int (Z.to_int n).

End Py.

(* ===================================================================== *)
(** ** Effects: a trace of calls, and exceptions *)
(* ===================================================================== *)

(** One record of the output: the dict [{"author": ..., "text": ...}]. *)
Record chunk_record : Type := mkRecord { author : string; text : string }.

(** The calls the module makes on its collaborators. *)
Inductive event : Type :=
| EvPdfOpen (path : string)
| EvGetEncoding (model : string)
| EvEncode (text : string)
| EvDecode (tokens : list Z)
| EvOpenWrite (path : string)
| EvJsonDump (path : string) (data : list chunk_record)
| EvPrint (msg : string).

(** A computation: the calls made so far, and either the exception that
    stopped it or its value. *)
Definition M (A : Type) : Type := (list event * (Py.exn + A))%type.

Definition ret {A : Type} (a : A) : M A := ([], inr a).

Definition bind {A B : Type} (m : M A) (k : A -> M B) : M B :=
  match m with
  | (tr, inl e) => (tr, inl e)
  | (tr, inr a) => let (tr', r) := k a in (tr ++ tr', r)
  end.

(** A call on a collaborator: logged, then its outcome. *)
Definition call {A : Type} (ev : event) (r : Py.exn + A) : M A := ([ev], r).

(** The outcome of a call that returns no value: the exception it
    raises, if any. *)
Definition returns_nothing (r : option Py.exn) : Py.exn + unit :=
  match r with
  | Some e => inl e
  | None => inr tt
  end.

(** An outcome of a built-in that touches no collaborator. *)
Definition lift {A : Type} (r : Py.exn + A) : M A := ([], r).

Definition trace {A : Type} (m : M A) : list event := fst m.
Definition outcome {A : Type} (m : M A) : Py.exn + A := snd m.

Declare Scope py_scope.
Delimit Scope py_scope with py.
Notation "x <- m ;; k" := (bind m (fun x => k))
  (at level 61, m at next level, right associativity) : py_scope.
Notation "m ;;; k" := (bind m (fun _ => k))
  (at level 61, right associativity) : py_scope.
Local Open Scope py_scope.

(** [for x in xs: acc = body(acc, x)], stopping at the first exception. *)
Fixpoint foreach {A X : Type} (xs : list X) (acc : A) (body : A -> X -> M A) : M A :=
  match xs with
  | [] => ret acc
  | x :: rest => acc' <- body acc x ;; foreach rest acc' body
  end.

(** [try: m  except Exception as e: raise h(e)]: an exception that is
    not an [Exception] is not caught. *)
Definition try_except {A : Type} (m : M A) (h : Py.exn -> Py.exn) : M A :=
  match m with
  | (tr, inl e) => if Py.is_Exception e then (tr, inl (h e)) else (tr, inl e)
  | (tr, inr a) => (tr, inr a)
  end.

(* ===================================================================== *)
(** ** The collaborators *)
(* ===================================================================== *)

(** A tiktoken encoding: [enc.encode] may raise, [enc.decode] of tokens
    that [encode] produced does not. *)
Record Encoding : Type := mkEncoding {
  encode : string -> Py.exn + list Z;
  decode : list Z -> string
}.

(** What [page.extract_text()] does on one page: it raises, or returns
    [None] or a string. *)
Definition page : Type := (Py.exn + option string)%type.

Record World : Type := mkWorld {
  (** [tiktoken.get_encoding(name)] *)
  tiktoken_get_encoding : string -> Py.exn + Encoding;
  (** [pdfplumber.open(path)] and the pages of the document *)
  pdfplumber_open : string -> Py.exn + list page;
  (** [os.path.basename(path)] of the platform *)
  os_path_basename : string -> string;
  (** [open(path, "w", encoding="utf-8")]: the exception it raises, if
      any *)
  open_w : string -> option Py.exn;
  (** [json.dump(data, f, indent=4, ensure_ascii=False)] on the file at
      the path: the exception it raises, if any *)
  json_dump : string -> list chunk_record -> option Py.exn;
  (** [print(msg)]: the exception it raises, if any *)
  print_stdout : string -> option Py.exn
}.

(* ===================================================================== *)
(** ** back-end/utils.py *)
(* ===================================================================== *)

Definition newline : string := String (ascii_of_nat 10) EmptyString.
Definition backslash : string := String (ascii_of_nat 92) EmptyString.

(** The directory of line 84. *)
Definition OUTPUT_DIR : string :=
  ("C:" ++ backslash ++ "Users" ++ backslash ++ "adamh" ++ backslash
   ++ "Desktop" ++ backslash ++ "fit_bot" ++ backslash ++ "back-end")%string.

(** The check mark of the message of line 89, U+2705 in UTF-8. *)
Definition check_mark : string :=
  String (ascii_of_nat 226) (String (ascii_of_nat 156)
    (String (ascii_of_nat 133) EmptyString)).

Section Utils.

Variable W : World.

(** The body of the [for page in pdf.pages] loop. *)
Definition extract_page (full_text : list string) (p : page) : M (list string) :=
  match p with
  | inl e => lift (inl e)
  | inr None => ret full_text
  | inr (Some t) =>
      match t with
      | EmptyString => ret full_text
      | String _ _ => ret (full_text ++ [t])
      end
  end.

Definition extract_text_from_pdf (pdf_path : string) : M string :=
  full_text <-
    try_except
      (pages <- call (EvPdfOpen pdf_path) (pdfplumber_open W pdf_path) ;;
       foreach pages [] extract_page)
      (fun e => Py.RuntimeError ("Error reading PDF: " ++ Py.exn_msg e)%string) ;;
  ret (Py.join newline full_text).

(** The body of the [for i in range(...)] loop. *)
Definition chunk_step (enc : Encoding) (tokens : list Z) (chunk_size : Z)
    (chunks : list string) (i : Z) : M (list string) :=
  let chunk_tokens := Py.slice tokens i (i + chunk_size) in
  c <- call (EvDecode chunk_tokens) (inr (decode enc chunk_tokens)) ;;
  ret (chunks ++ [c]).

Definition tokenize_and_chunk (text : string) (chunk_size overlap : Z)
    (model : string) : M (list string) :=
  enc <- call (EvGetEncoding model) (tiktoken_get_encoding W model) ;;
  tokens <- call (EvEncode text) (encode enc text) ;;
  idxs <- lift (Py.range 0 (Py.len tokens) (chunk_size - overlap)) ;;
  foreach idxs [] (chunk_step enc tokens chunk_size).

(** The default of the parameter [model], which [jsonify] relies on. *)
Definition default_model : string := "cl100k_base".

(** The body of the [for pdf_path in paths] loop. *)
Definition jsonify_step (chunk_size overlap : Z)
    (data : list chunk_record) (pdf_path : string) : M (list chunk_record) :=
  let author_name := Py.replace (os_path_basename W pdf_path) ".pdf" "" in
  full_text <- extract_text_from_pdf pdf_path ;;
  chunks <- tokenize_and_chunk full_text chunk_size overlap default_model ;;
  ret (fold_left (fun d chunk => d ++ [mkRecord author_name chunk]) chunks data).

(** [open], [json.dump] and [print] may each raise; an exception of
    [json.dump] leaves the [with] block and the function.  The function
    has no [return], so its value is [None]. *)
Definition jsonify (paths : list string) (chunk_size overlap : Z)
    (output_filename : string) : M Py.value :=
  data <- foreach paths [] (jsonify_step chunk_size overlap) ;;
  let output_path := (OUTPUT_DIR ++ backslash ++ output_filename)%string in
  call (EvOpenWrite output_path) (returns_nothing (open_w W output_path)) ;;;
  call (EvJsonDump output_path data)
       (returns_nothing (json_dump W output_path data)) ;;;
  let msg := (check_mark ++ " JSON saved at " ++ output_path ++ " with "
              ++ Py.str_of_int (Py.len data) ++ " chunks.")%string in
  call (EvPrint msg) (returns_nothing (print_stdout W msg)) ;;;
  ret Py.None_.

End Utils.

(* ===================================================================== *)
(** ** A concrete world: Windows paths and a byte-level vocabulary *)
(* ===================================================================== *)

Module NtPath.

Definition is_sep (c : ascii) : bool :=
  Ascii.eqb c "/" || Ascii.eqb c (ascii_of_nat 92).

(** The part of [p] after its last separator; [seg] is the segment
    read so far. *)
Fixpoint last_segment (seg p : string) : string :=
  match p with
  | EmptyString => seg
  | String c p' =>
      if is_sep c then last_segment EmptyString p'
      else last_segment (seg ++ String c EmptyString)%string p'
  end.

(** [s[n:]] *)
Fixpoint drop (n : nat) (s : string) : string :=
  match n, s with
  | O, _ => s
  | S _, EmptyString => EmptyString
  | S k, String _ s' => drop k s'
  end.

(** [s[i:]] for [i] the index of the first separator of [s], if any. *)
Fixpoint from_sep (s : string) : option string :=
  match s with
  | EmptyString => None
  | String c s' => if is_sep c then Some s else from_sep s'
  end.

Definition is_cont (c : ascii) : bool :=
  (128 <=? nat_of_ascii c)%nat && (nat_of_ascii c <=? 191)%nat.

Fixpoint skip_cont (s : string) : string :=
  match s with
  | EmptyString => EmptyString
  | String c s' => if is_cont c then skip_cont s' else s
  end.

(** [s[1:]] counted in characters: the first byte and the continuation
    bytes of its UTF-8 sequence are dropped. *)
Definition drop_char (s : string) : string :=
  match s with
  | EmptyString => EmptyString
  | String _ s' => skip_cont s'
  end.

Definition upper_is (c : ascii) (u : ascii) : bool :=
  Ascii.eqb c u || Ascii.eqb c (ascii_of_nat (nat_of_ascii u + 32)).

(** [normp[:8].upper() == "\\\\?\\UNC\\"]: the prefix of an extended
    UNC path, separators of either kind, letters of either case. *)
Definition has_unc_prefix (p : string) : bool :=
  match p with
  | String c0 (String c1 (String c2 (String c3 (String c4 (String c5
      (String c6 (String c7 _))))))) =>
      is_sep c0 && is_sep c1 && Ascii.eqb c2 "?" && is_sep c3
      && upper_is c4 "U" && upper_is c5 "N" && upper_is c6 "C" && is_sep c7
  | _ => false
  end.

(** The third component of [ntpath.splitroot(p)] (CPython 3.12): the
    path without its drive and root.  A path starting with two
    separators has a UNC or device drive, which runs to the second
    separator after it (the whole path when there is none); otherwise a
    colon after the first character ends a drive. *)
Definition after_root (p : string) : string :=
  match p with
  | EmptyString => EmptyString
  | String c0 p1 =>
      if is_sep c0 then
        match p1 with
        | EmptyString => p1
        | String c1 _ =>
            if is_sep c1 then
              match from_sep (drop (if has_unc_prefix p then 8 else 2) p) with
              | None => EmptyString
              | Some s1 =>
                  match from_sep (drop 1 s1) with
                  | None => EmptyString
                  | Some s2 => drop 1 s2
                  end
              end
            else p1
        end
      else
        match drop_char p with
        | String c r =>
            if Ascii.eqb c ":" then
              match r with
              | String c2 r' => if is_sep c2 then r' else r
              | EmptyString => r
              end
            else p
        | EmptyString => p
        end
  end.

(** [ntpath.basename(p)], which is [ntpath.split(p)[1]]: what follows
    the last separator of the path without its drive and root. *)
Definition basename (p : string) : string :=
  last_segment EmptyString (after_root p).


End NtPath.

Module ByteLevel.

(** The vocabulary has one token per byte: encoding a text lists its
    UTF-8 bytes. *)
Definition bytes_of (s : string) : list Z :=
  map (fun c => Z.of_nat (nat_of_ascii c)) (list_ascii_of_string s).

Definition string_of (bs : list Z) : string :=
  string_of_list_ascii (map (fun b => ascii_of_nat (Z.to_nat b)) bs).

Definition is_cont (b : Z) : bool := (128 <=? b) && (b <=? 191).

(** U+FFFD, the replacement character, in UTF-8. *)
Definition replacement : list Z := [239; 191; 189].

Definition between (lo hi b : Z) : bool := (lo <=? b) && (b <=? hi).

(** For a lead byte of a multi-byte sequence: the range of its second
    byte and the number of continuation bytes after the second
    (the well-formed UTF-8 byte sequences of the Unicode standard). *)
Definition lead (b : Z) : option (Z * Z * nat) :=
  if between 194 223 b then Some (128, 191, 0%nat)
  else if b =? 224 then Some (160, 191, 1%nat)
  else if between 225 236 b then Some (128, 191, 1%nat)
  else if b =? 237 then Some (128, 159, 1%nat)
  else if between 238 239 b then Some (128, 191, 1%nat)
  else if b =? 240 then Some (144, 191, 2%nat)
  else if between 241 243 b then Some (128, 191, 2%nat)
  else if b =? 244 then Some (128, 143, 2%nat)
  else None.

(** [bytes.decode("utf-8", errors="replace")], given as the UTF-8 bytes
    of the decoded text: a well-formed sequence is kept; a byte that
    starts none, and the longest ill-formed start of a sequence (also
    one cut by the end of the input), become one U+FFFD each. *)
Fixpoint decode_lossy (bs : list Z) : list Z :=
  match bs with
  | [] => []
  | b :: r0 =>
      if between 0 127 b then b :: decode_lossy r0
      else
        match lead b with
        | None => replacement ++ decode_lossy r0
        | Some (lo, hi, more) =>
            match r0 with
            | [] => replacement
            | c1 :: r1 =>
                if between lo hi c1 then
                  match more with
                  | O => b :: c1 :: decode_lossy r1
                  | S more' =>
                      match r1 with
                      | [] => replacement
                      | c2 :: r2 =>
                          if is_cont c2 then
                            match more' with
                            | O => b :: c1 :: c2 :: decode_lossy r2
                            | S _ =>
                                match r2 with
                                | [] => replacement
                                | c3 :: r3 =>
                                    if is_cont c3
                                    then b :: c1 :: c2 :: c3 :: decode_lossy r3
                                    else replacement ++ decode_lossy r2
                                end
                            end
                          else replacement ++ decode_lossy r1
                      end
                  end
                else replacement ++ decode_lossy r0
            end
        end
  end.

Definition enc : Encoding :=
  {| encode := fun s => inr (bytes_of s);
     decode := fun ts => string_of (decode_lossy ts) |}.

(** A document of the demonstration file system: its pages. *)
Definition documents (path : string) : Py.exn + list page :=
  if String.eqb (NtPath.basename path) "abcde.pdf"
  then inr [inr (Some "abc"); inr None; inr (Some "e")]
  else if String.eqb (NtPath.basename path) "empty.pdf"
  then inr [inr None; inr (Some "")]
  else if String.eqb (NtPath.basename path) "scan.PDF"
  then inr [inr (Some "ab")]
  else inl (Py.Raise "FileNotFoundError" "No such file or directory").

Definition world : World :=
  {| tiktoken_get_encoding := fun _ => inr enc;
     pdfplumber_open := documents;
     os_path_basename := NtPath.basename;
     open_w := fun _ => None;
     json_dump := fun _ _ => None;
     print_stdout := fun _ => None |}.

End ByteLevel.

(* ===================================================================== *)
(** ** Readings of a run *)
(* ===================================================================== *)

(** The token windows handed to [enc.decode], in call order: the source
    window of each chunk. *)
Definition decode_calls (tr : list event) : list (list Z) :=
  flat_map (fun ev => match ev with EvDecode ts => [ts] | _ => [] end) tr.

(** Calls that create or fill the output file, or report it. *)
Definition is_output (ev : event) : bool :=
  match ev with
  | EvOpenWrite _ | EvJsonDump _ _ | EvPrint _ => true
  | _ => false
  end.

(** A trace without any such call. *)
Definition no_output (tr : list event) : Prop :=
  forall ev, In ev tr -> is_output ev = false.

(** The paths opened for writing or dumped to. *)
Definition written_paths (tr : list event) : list string :=
  flat_map (fun ev => match ev with
                      | EvOpenWrite p => [p]
                      | EvJsonDump p _ => [p]
                      | _ => []
                      end) tr.

(** The values of [chunk_tokens] over the loop of [tokenize_and_chunk]. *)
Definition chunk_windows (tokens : list Z) (chunk_size overlap : Z) : list (list Z) :=
  match Py.range 0 (Py.len tokens) (chunk_size - overlap) with
  | inl _ => []
  | inr idxs => map (fun i => Py.slice tokens i (i + chunk_size)) idxs
  end.

(** Extraction then chunking of one document (lines 71 and 74). *)
Definition document_chunks (W : World) (chunk_size overlap : Z) (pdf_path : string)
  : M (list string) :=
  full_text <- extract_text_from_pdf W pdf_path ;;
  tokenize_and_chunk W full_text chunk_size overlap default_model.

(** The chunks of one document, none when its processing raises. *)
Definition chunks_of (W : World) (chunk_size overlap : Z) (pdf_path : string)
  : list string :=
  match outcome (document_chunks W chunk_size overlap pdf_path) with
  | inr chunks => chunks
  | inl _ => []
  end.

(** The value of [author_name] for a path (line 68). *)
Definition label_of (W : World) (pdf_path : string) : string :=
  Py.replace (os_path_basename W pdf_path) ".pdf" "".

(** The records one document adds to [data] (lines 77 to 81). *)
Definition doc_records (W : World) (chunk_size overlap : Z) (pdf_path : string)
  : list chunk_record :=
  map (mkRecord (label_of W pdf_path)) (chunks_of W chunk_size overlap pdf_path).

(** The path of line 84. *)
Definition output_path_of (output_filename : string) : string :=
  (OUTPUT_DIR ++ backslash ++ output_filename)%string.

(** The message of line 89. *)
Definition saved_message (output_filename : string) (count : Z) : string :=
  (check_mark ++ " JSON saved at " ++ output_path_of output_filename ++ " with "
   ++ Py.str_of_int count ++ " chunks.")%string.

(** The ceiling of [a / b] for [0 < b]. *)
Definition ceil_div (a b : Z) : Z := - ((- a) / b).

(** The number of chunks as the specification counts them. *)
Definition spec_chunk_count (N window_size overlap : Z) : Z :=
  if N =? 0 then 0 else ceil_div (N - overlap) (window_size - overlap).

(** [sub in s] *)
Fixpoint contains (s sub : string) : bool :=
  Py.startswith s sub ||
  match s with
  | EmptyString => false
  | String _ s' => contains s' sub
  end.

(** The root of [os.path.splitext] on a path segment: the part before
    the last dot, unless only dots precede it.  [named] tells whether a
    character other than a dot has been read. *)
Fixpoint splitext_root (named : bool) (seg : string) : string :=
  match seg with
  | EmptyString => EmptyString
  | String c seg' =>
      if Ascii.eqb c "."
      then if named && negb (contains seg' ".")
           then EmptyString
           else String c (splitext_root named seg')
      else String c (splitext_root true seg')
  end.

(** A path segment with its extension removed. *)
Definition strip_extension (seg : string) : string := splitext_root false seg.

(** A stem made of dots only (also the empty one): a segment that
    starts with it and goes on with one more dot and letters has no
    extension for [os.path.splitext]. *)
Fixpoint all_dots (stem : string) : bool :=
  match stem with
  | EmptyString => true
  | String c stem' => Ascii.eqb c "." && all_dots stem'
  end.



(** The documents opened, in call order. *)
Definition pdf_opens (tr : list event) : list string :=
  flat_map (fun ev => match ev with EvPdfOpen p => [p] | _ => [] end) tr.

(** The calls of a trace that open, fill or report the output file. *)
Definition output_calls (tr : list event) : list event := filter is_output tr.

(** A world in which every path is a document of one page. *)
Definition one_page_world : World :=
  {| tiktoken_get_encoding := fun _ => inr ByteLevel.enc;
     pdfplumber_open := fun _ => inr [inr (Some "abcde")];
     os_path_basename := NtPath.basename;
     open_w := fun _ => None;
     json_dump := fun _ _ => None;
     print_stdout := fun _ => None |}.

(** A world in which the output file cannot be opened. *)
Definition read_only_world : World :=
  {| tiktoken_get_encoding := fun _ => inr ByteLevel.enc;
     pdfplumber_open := fun _ => inr [inr (Some "abcde")];
     os_path_basename := NtPath.basename;
     open_w := fun _ => Some (Py.Raise "PermissionError" "Permission denied");
     json_dump := fun _ _ => None;
     print_stdout := fun _ => None |}.

(** A world whose standard output cannot encode the check mark. *)
Definition cp1252_world : World :=
  {| tiktoken_get_encoding := fun _ => inr ByteLevel.enc;
     pdfplumber_open := fun _ => inr [inr (Some "abcde")];
     os_path_basename := NtPath.basename;
     open_w := fun _ => None;
     json_dump := fun _ _ => None;
     print_stdout := fun _ =>
       Some (Py.Raise "UnicodeEncodeError"
               "'charmap' codec can't encode character") |}.

(** A world in which the second page of every document raises. *)
Definition bad_page_world : World :=
  {| tiktoken_get_encoding := fun _ => inr ByteLevel.enc;
     pdfplumber_open := fun _ =>
       inr [inr (Some "abc"); inl (Py.Raise "PDFSyntaxError" "bad page");
            inr (Some "e")];
     os_path_basename := NtPath.basename;
     open_w := fun _ => None;
     json_dump := fun _ _ => None;
     print_stdout := fun _ => None |}.

(** A world in which opening a document is interrupted from the
    keyboard. *)
Definition interrupted_world : World :=
  {| tiktoken_get_encoding := fun _ => inr ByteLevel.enc;
     pdfplumber_open := fun _ => inl (Py.Raise "KeyboardInterrupt" "");
     os_path_basename := NtPath.basename;
     open_w := fun _ => None;
     json_dump := fun _ _ => None;
     print_stdout := fun _ => None |}.

(** The page texts that line 18 lets through: neither [None] nor
    empty. *)
Definition kept_texts (texts : list (option string)) : list string :=
  flat_map (fun t => match t with
                     | Some (String c s) => [String c s]
                     | _ => []
                     end) texts.

(** Lines 95 to 97. *)
Definition pdf1 : string :=
  "C:\Users\adamh\Desktop\fit_bot\back-end\fitness_books\Beyond Bigger Leaner Stronger - Michael Matthews.pdf".
Definition pdf2 : string :=
  "C:\Users\adamh\Desktop\fit_bot\back-end\fitness_books\The Lean Muscle Diet PDF.pdf".
Definition pdf3 : string :=
  "C:\Users\adamh\Desktop\fit_bot\back-end\fitness_books\Science_fitness_book.pdf".

(** Line 99: the call made when the module is run. *)
Definition main (W : World) : M Py.value :=
  jsonify W [pdf1; pdf2; pdf3] 500 50 "fitness_books.json".

(* ===================================================================== *)
(** ** Lemmas on the built-ins *)
(* ===================================================================== *)

Lemma ceil_div_range (n s : Z) :
  0 < s -> 0 < n -> (n - 1) / s + 1 = ceil_div n s.
Proof.
  intros Hs Hn. unfold ceil_div.
  set (q := (n - 1) / s).
  assert (Hq : s * q <= n - 1 < s * q + s).
  { pose proof (Z.mul_div_le (n - 1) s Hs).
    pose proof (Z.mul_succ_div_gt (n - 1) s Hs).
    subst q. lia. }
  assert (Hd : (- n) / s = - (q + 1)).
  { symmetry. apply (Z.div_unique (- n) s (- (q + 1)) (s * q + s - n)); lia. }
  rewrite Hd. lia.
Qed.

Lemma ceil_div_zero (s : Z) : ceil_div 0 s = 0.
Proof. reflexivity. Qed.

Lemma range_length_up (n s : Z) :
  0 < s -> 0 <= n -> Py.range_length 0 n s = ceil_div n s.
Proof.
  intros Hs Hn. unfold Py.range_length.
  destruct (Z.ltb_spec 0 s) as [_ | ?]; [| lia].
  destruct (Z.ltb_spec 0 n) as [Hpos | Hz].
  - rewrite <- ceil_div_range by lia. do 2 f_equal. lia.
  - replace n with 0 by lia. symmetry. apply ceil_div_zero.
Qed.

Lemma range_length_down (n s : Z) :
  s < 0 -> 0 <= n -> Py.range_length 0 n s = 0.
Proof.
  intros Hs Hn. unfold Py.range_length.
  destruct (Z.ltb_spec 0 s) as [? | _]; [lia |].
  destruct (Z.ltb_spec n 0) as [? | _]; [lia | reflexivity].
Qed.

Lemma len_nonneg {A : Type} (l : list A) : 0 <= Py.len l.
Proof. unfold Py.len. lia. Qed.

(** A window that starts inside the list and has a non-negative width. *)
Lemma slice_window {A : Type} (l : list A) (i w : Z) :
  0 <= i -> 0 <= w ->
  Py.slice l i (i + w) = firstn (Z.to_nat w) (skipn (Z.to_nat i) l).
Proof.
  intros Hi Hw. unfold Py.slice, Py.adjust_index.
  destruct (Z.ltb_spec i 0) as [? | _]; [lia |].
  destruct (Z.ltb_spec (i + w) 0) as [? | _]; [lia |].
  pose proof (len_nonneg l) as Hn. unfold Py.len in *.
  destruct (Z_le_gt_dec i (Z.of_nat (List.length l))) as [Hin | Hout].
  - rewrite (Z.min_l i) by lia.
    destruct (Z_le_gt_dec (i + w) (Z.of_nat (List.length l))) as [Hfit | Hcut].
    + rewrite Z.min_l by lia. do 2 f_equal. lia.
    + rewrite Z.min_r by lia.
      rewrite (firstn_all2 (n := Z.to_nat w)); [| rewrite length_skipn; lia].
      apply firstn_all2. rewrite length_skipn. lia.
  - rewrite !Z.min_r by lia. rewrite Z.sub_diag. simpl.
    rewrite skipn_all2 by lia. now rewrite firstn_nil.
Qed.

Lemma window_length {A : Type} (l : list A) (i w : nat) :
  List.length (firstn w (skipn i l)) = Nat.min w (List.length l - i).
Proof. now rewrite length_firstn, length_skipn. Qed.

(* ===================================================================== *)
(** ** Lemmas on the run of [tokenize_and_chunk] *)
(* ===================================================================== *)

Lemma foreach_chunk_step (enc : Encoding) (tokens : list Z) (chunk_size : Z)
    (idxs : list Z) (acc : list string) :
  foreach idxs acc (chunk_step enc tokens chunk_size)
  = (map EvDecode (map (fun i => Py.slice tokens i (i + chunk_size)) idxs),
     inr (acc ++ map (decode enc)
                     (map (fun i => Py.slice tokens i (i + chunk_size)) idxs))).
Proof.
  revert acc. induction idxs as [| i rest IH]; intros acc; simpl.
  - unfold ret. now rewrite app_nil_r.
  - rewrite IH. unfold chunk_step, call, ret. simpl.
    now rewrite <- app_assoc.
Qed.

Section ChunkRun.

Variable W : World.
Variables (text model : string) (enc : Encoding) (tokens : list Z).
Hypothesis Henc : tiktoken_get_encoding W model = inr enc.
Hypothesis Htok : encode enc text = inr tokens.

(** A non-zero stride: one decode call per window, and the chunks are
    the decoded windows. *)
Lemma tokenize_and_chunk_windows (chunk_size overlap : Z) :
  chunk_size - overlap <> 0 ->
  tokenize_and_chunk W text chunk_size overlap model
  = ([EvGetEncoding model; EvEncode text]
       ++ map EvDecode (chunk_windows tokens chunk_size overlap),
     inr (map (decode enc) (chunk_windows tokens chunk_size overlap))).
Proof.
  intros Hstep. unfold tokenize_and_chunk, chunk_windows, call, lift.
  rewrite Henc. simpl. rewrite Htok. simpl.
  unfold Py.range. destruct (Z.eqb_spec (chunk_size - overlap) 0) as [? | _]; [lia |].
  simpl. rewrite foreach_chunk_step. reflexivity.
Qed.

(** A zero stride: [range] raises once the text has been encoded. *)
Lemma tokenize_and_chunk_zero_stride (chunk_size : Z) :
  tokenize_and_chunk W text chunk_size chunk_size model
  = ([EvGetEncoding model; EvEncode text],
     inl (Py.ValueError "range() arg 3 must not be zero")).
Proof.
  unfold tokenize_and_chunk, call, lift.
  rewrite Henc. simpl. rewrite Htok. simpl.
  unfold Py.range. rewrite Z.sub_diag. reflexivity.
Qed.

End ChunkRun.

Lemma decode_calls_app (t1 t2 : list event) :
  decode_calls (t1 ++ t2) = decode_calls t1 ++ decode_calls t2.
Proof. unfold decode_calls. apply flat_map_app. Qed.

Lemma decode_calls_decodes (ws : list (list Z)) :
  decode_calls (map EvDecode ws) = ws.
Proof. induction ws as [| w ws IH]; simpl; [reflexivity | now f_equal]. Qed.

(** With a positive stride, window [k] starts at token [k * stride]. *)
Lemma chunk_windows_up (tokens : list Z) (chunk_size overlap : Z) :
  0 <= chunk_size -> overlap < chunk_size ->
  chunk_windows tokens chunk_size overlap
  = map (fun k : nat =>
           firstn (Z.to_nat chunk_size)
                  (skipn (k * Z.to_nat (chunk_size - overlap)) tokens))
        (seq 0 (Z.to_nat (ceil_div (Py.len tokens) (chunk_size - overlap)))).
Proof.
  intros Hw Ho. unfold chunk_windows, Py.range.
  destruct (Z.eqb_spec (chunk_size - overlap) 0) as [? | _]; [lia |].
  rewrite range_length_up by (try apply len_nonneg; lia).
  rewrite map_map. apply map_ext. intros k. simpl.
  assert (Hk : 0 <= Z.of_nat k * (chunk_size - overlap))
    by (apply Z.mul_nonneg_nonneg; lia).
  rewrite slice_window by lia. do 2 f_equal.
  rewrite Z2Nat.inj_mul by lia. now rewrite Nat2Z.id.
Qed.

Lemma chunk_windows_down (tokens : list Z) (chunk_size overlap : Z) :
  chunk_size < overlap -> chunk_windows tokens chunk_size overlap = [].
Proof.
  intros Ho. unfold chunk_windows, Py.range.
  destruct (Z.eqb_spec (chunk_size - overlap) 0) as [? | _]; [lia |].
  rewrite range_length_down by (try apply len_nonneg; lia). reflexivity.
Qed.

Lemma ceil_div_nonneg (n s : Z) : 0 < s -> 0 <= n -> 0 <= ceil_div n s.
Proof.
  intros Hs Hn. unfold ceil_div.
  assert ((- n) / s <= 0) by (apply Z.div_le_upper_bound; lia). lia.
Qed.

(** An index below the chunk count starts inside the token list. *)
Lemma start_in_range (n s k : Z) :
  0 < s -> 0 <= n -> 0 <= k < ceil_div n s -> k * s < n.
Proof.
  intros Hs Hn Hk.
  destruct (Z.eq_dec n 0) as [-> | Hne].
  - rewrite ceil_div_zero in Hk. lia.
  - rewrite <- ceil_div_range in Hk by lia.
    pose proof (Z.mul_div_le (n - 1) s Hs). nia.
Qed.

(** Conversely, an index whose start is inside the list is below the
    count. *)
Lemma below_count (n s k : Z) :
  0 < s -> 0 <= n -> 0 <= k -> k * s < n -> k < ceil_div n s.
Proof.
  intros Hs Hn Hk Hlt.
  rewrite <- ceil_div_range by lia.
  assert (k <= (n - 1) / s) by (apply Z.div_le_lower_bound; lia). lia.
Qed.

Lemma nth_error_map_seq {A : Type} (f : nat -> A) (n k : nat) (x : A) :
  nth_error (map f (seq 0 n)) k = Some x -> (k < n)%nat /\ x = f k.
Proof.
  intros H.
  assert (Hk : (k < n)%nat).
  { assert (Hs : nth_error (map f (seq 0 n)) k <> None) by congruence.
    apply nth_error_Some in Hs. now rewrite length_map, length_seq in Hs. }
  split; [exact Hk |].
  rewrite nth_error_map, (nth_error_nth' _ 0%nat) in H
    by now rewrite length_seq.
  rewrite seq_nth in H by exact Hk. simpl in H. congruence.
Qed.

Lemma nth_error_map_seq_lt {A : Type} (f : nat -> A) (n k : nat) :
  (k < n)%nat -> nth_error (map f (seq 0 n)) k = Some (f k).
Proof.
  intros Hk.
  rewrite nth_error_map, (nth_error_nth' _ 0%nat) by now rewrite length_seq.
  now rewrite seq_nth by exact Hk.
Qed.

Section ValidConfiguration.

Variables (tokens : list Z) (chunk_size overlap : Z).
Hypothesis Hsize : 0 < chunk_size.
Hypothesis Hoverlap : 0 <= overlap < chunk_size.

Let N := Py.len tokens.
Let stride := chunk_size - overlap.

Lemma chunk_windows_length :
  Py.len (chunk_windows tokens chunk_size overlap) = ceil_div N stride.
Proof.
  rewrite chunk_windows_up by lia. unfold Py.len.
  rewrite length_map, length_seq, Z2Nat.id; [reflexivity |].
  apply ceil_div_nonneg; [subst stride; lia | apply len_nonneg].
Qed.

(** Window [k] is [tokens[k*stride : k*stride + chunk_size]], and it
    starts inside the list. *)
Lemma chunk_windows_nth (k : nat) (win : list Z) :
  nth_error (chunk_windows tokens chunk_size overlap) k = Some win ->
  Z.of_nat k * stride < N
  /\ win = firstn (Z.to_nat chunk_size) (skipn (k * Z.to_nat stride) tokens).
Proof.
  rewrite chunk_windows_up by lia. intros H.
  apply nth_error_map_seq in H. destruct H as [Hk ->].
  split; [| reflexivity].
  apply start_in_range; [subst stride; lia | apply len_nonneg |].
  fold N stride in Hk. lia.
Qed.

Lemma chunk_windows_nth_len (k : nat) (win : list Z) :
  nth_error (chunk_windows tokens chunk_size overlap) k = Some win ->
  Py.len win = Z.min chunk_size (N - Z.of_nat k * stride).
Proof.
  intros H. apply chunk_windows_nth in H. destruct H as [Hin ->].
  unfold Py.len. rewrite window_length.
  assert (Hs : Z.of_nat (k * Z.to_nat stride) = Z.of_nat k * stride).
  { rewrite Nat2Z.inj_mul, Z2Nat.id; [reflexivity | subst stride; lia]. }
  subst N. unfold Py.len in *. lia.
Qed.

(** A full window is followed by another window. *)
Lemma chunk_windows_next (k : nat) (win : list Z) :
  0 < overlap ->
  nth_error (chunk_windows tokens chunk_size overlap) k = Some win ->
  Py.len win = chunk_size ->
  exists next, nth_error (chunk_windows tokens chunk_size overlap) (S k) = Some next.
Proof.
  intros Hpos H Hfull.
  pose proof (chunk_windows_nth_len k win H) as Hlen.
  rewrite chunk_windows_up by lia. eexists.
  apply nth_error_map_seq_lt.
  assert (Z.of_nat (S k) < ceil_div N stride); [| subst N stride; lia].
  apply below_count; [subst stride; lia | apply len_nonneg | lia |].
  rewrite Nat2Z.inj_succ. subst stride. lia.
Qed.

(** The tail of a full window is the head of the next one. *)
Lemma chunk_windows_shared (k : nat) (a b : list Z) :
  nth_error (chunk_windows tokens chunk_size overlap) k = Some a ->
  nth_error (chunk_windows tokens chunk_size overlap) (S k) = Some b ->
  Py.len a = chunk_size ->
  skipn (List.length a - Z.to_nat overlap) a = firstn (Z.to_nat overlap) b
  /\ Py.len (firstn (Z.to_nat overlap) b) = overlap.
Proof.
  intros Ha Hb Hfull.
  pose proof (chunk_windows_nth_len k a Ha) as Hlen.
  apply chunk_windows_nth in Ha. destruct Ha as [Hina Ea].
  apply chunk_windows_nth in Hb. destruct Hb as [Hinb Eb].
  assert (Hla : List.length a = Z.to_nat chunk_size)
    by (unfold Py.len in Hfull; lia).
  assert (Hst : (Z.to_nat chunk_size - Z.to_nat overlap = Z.to_nat stride)%nat)
    by (subst stride; lia).
  assert (Hfit : (k * Z.to_nat stride + Z.to_nat chunk_size <= List.length tokens)%nat).
  { assert (Hs : Z.of_nat (k * Z.to_nat stride) = Z.of_nat k * stride).
    { rewrite Nat2Z.inj_mul, Z2Nat.id; [reflexivity | subst stride; lia]. }
    subst N. unfold Py.len in *. lia. }
  assert (Eshare :
    skipn (List.length a - Z.to_nat overlap) a
    = firstn (Z.to_nat overlap) (skipn (S k * Z.to_nat stride) tokens)).
  { rewrite Hla, Hst. rewrite Ea at 1.
    rewrite skipn_firstn_comm, skipn_skipn.
    change (S k * Z.to_nat stride)%nat
      with (Z.to_nat stride + k * Z.to_nat stride)%nat.
    f_equal. subst stride. lia. }
  assert (Ehead :
    firstn (Z.to_nat overlap) b
    = firstn (Z.to_nat overlap) (skipn (S k * Z.to_nat stride) tokens)).
  { rewrite Eb, firstn_firstn. f_equal. lia. }
  split; [congruence |].
  rewrite Ehead. unfold Py.len. rewrite window_length.
  simpl. lia.
Qed.

End ValidConfiguration.

(* ===================================================================== *)
(** ** The chunker: [tokenize_and_chunk] *)
(* ===================================================================== *)

(** C1 (as the code has it): under a valid configuration
    ([chunk_size > 0], [0 <= overlap < chunk_size]) a text of [N] tokens
    yields exactly [ceil(N / (chunk_size - overlap))] chunks, which is 0
    when [N = 0]: one chunk per start index [0, stride, 2*stride, ...]
    below [N]. *)
Theorem chunk_count (W : World) (text model : string) (enc : Encoding)
    (tokens : list Z) (chunk_size overlap : Z) :
  tiktoken_get_encoding W model = inr enc ->
  encode enc text = inr tokens ->
  0 < chunk_size ->
  0 <= overlap < chunk_size ->
  exists chunks,
    outcome (tokenize_and_chunk W text chunk_size overlap model) = inr chunks
    /\ Py.len chunks
       = (if Py.len tokens =? 0 then 0
          else ceil_div (Py.len tokens) (chunk_size - overlap)).
Proof.
  intros Henc Htok Hsize Hov.
  rewrite (tokenize_and_chunk_windows W text model enc tokens Henc Htok) by lia.
  eexists. split; [reflexivity |].
  unfold Py.len at 1. rewrite length_map.
  fold (Py.len (chunk_windows tokens chunk_size overlap)).
  rewrite chunk_windows_length by assumption.
  destruct (Z.eqb_spec (Py.len tokens) 0) as [-> | _]; [apply ceil_div_zero | reflexivity].
Qed.

Lemma chunk_count_witness :
  exists chunks,
    outcome (tokenize_and_chunk ByteLevel.world "abcde" 3 1 default_model)
    = inr chunks
    /\ Py.len chunks = (if Py.len [97; 98; 99; 100; 101] =? 0 then 0
                        else ceil_div (Py.len [97; 98; 99; 100; 101]) (3 - 1)).
Proof.
  apply (chunk_count ByteLevel.world "abcde" default_model ByteLevel.enc
           [97; 98; 99; 100; 101] 3 1);
    [reflexivity | reflexivity | lia | lia].
Defined.

(** C1 as stated fails: "abcde" is five tokens, and with windows of 3
    and an overlap of 1 the code produces three chunks, where
    [ceil((N - overlap) / (window_size - overlap))] is 2. *)
Lemma chunk_count_counterexample :
  encode ByteLevel.enc "abcde" = inr [97; 98; 99; 100; 101]
  /\ outcome (tokenize_and_chunk ByteLevel.world "abcde" 3 1 default_model)
     = inr ["abc"; "cde"; "e"]
  /\ spec_chunk_count (Py.len [97; 98; 99; 100; 101]) 3 1 = 2
  /\ Py.len ["abc"; "cde"; "e"]
     <> spec_chunk_count (Py.len [97; 98; 99; 100; 101]) 3 1.
Proof. repeat split; try reflexivity. vm_compute. discriminate. Qed.

(** C3 (as the code has it): under a valid configuration the [k]-th
    chunk is the decoding of [tokens[k*stride : k*stride + chunk_size]],
    a window of [min(chunk_size, N - k*stride)] tokens, so it is full
    exactly when [k*stride + chunk_size <= N]; with [overlap = 0] every
    chunk except the last is full. *)
Theorem window_sizes (W : World) (text model : string) (enc : Encoding)
    (tokens : list Z) (chunk_size overlap : Z) :
  tiktoken_get_encoding W model = inr enc ->
  encode enc text = inr tokens ->
  0 < chunk_size ->
  0 <= overlap < chunk_size ->
  let run := tokenize_and_chunk W text chunk_size overlap model in
  let ws := decode_calls (trace run) in
  let stride := chunk_size - overlap in
  outcome run = inr (map (decode enc) ws)
  /\ (forall (k : nat) (win : list Z),
        nth_error ws k = Some win ->
        win = Py.slice tokens (Z.of_nat k * stride) (Z.of_nat k * stride + chunk_size)
        /\ Py.len win = Z.min chunk_size (Py.len tokens - Z.of_nat k * stride)
        /\ (Py.len win = chunk_size
            <-> Z.of_nat k * stride + chunk_size <= Py.len tokens))
  /\ (overlap = 0 ->
      forall (k : nat) (win : list Z),
        nth_error ws k = Some win ->
        (S k < List.length ws)%nat ->
        Py.len win = chunk_size).
Proof.
  intros Henc Htok Hsize Hov run ws stride. subst run ws.
  rewrite (tokenize_and_chunk_windows W text model enc tokens Henc Htok) by lia.
  unfold trace, outcome. simpl fst. simpl snd.
  change (decode_calls (EvGetEncoding model :: EvEncode text
                          :: map EvDecode (chunk_windows tokens chunk_size overlap)))
    with (decode_calls (map EvDecode (chunk_windows tokens chunk_size overlap))).
  rewrite decode_calls_decodes.
  split; [reflexivity | split].
  - intros k win Hk.
    pose proof (chunk_windows_nth_len tokens chunk_size overlap Hsize Hov k win Hk) as Hlen.
    pose proof (chunk_windows_nth tokens chunk_size overlap Hsize Hov k win Hk) as [Hin Ewin].
    assert (Hnn : 0 <= Z.of_nat k * stride)
      by (apply Z.mul_nonneg_nonneg; subst stride; lia).
    repeat split.
    + rewrite slice_window by lia. rewrite Ewin. do 2 f_equal.
      rewrite Z2Nat.inj_mul by (subst stride; lia). now rewrite Nat2Z.id.
    + exact Hlen.
    + fold stride in Hlen. lia.
    + fold stride in Hlen. lia.
  - intros Hz k win Hk Hnext.
    pose proof (chunk_windows_nth_len tokens chunk_size overlap Hsize Hov k win Hk) as Hlen.
    destruct (nth_error (chunk_windows tokens chunk_size overlap) (S k)) as [next |] eqn:Hn.
    + apply (chunk_windows_nth tokens chunk_size overlap Hsize Hov) in Hn.
      destruct Hn as [Hin _]. rewrite Nat2Z.inj_succ in Hin. lia.
    + apply nth_error_None in Hn. lia.
Qed.

Lemma window_sizes_witness :
  let run := tokenize_and_chunk ByteLevel.world "abcde" 2 0 default_model in
  let ws := decode_calls (trace run) in
  let stride := 2 - 0 in
  outcome run = inr (map (decode ByteLevel.enc) ws)
  /\ (forall (k : nat) (win : list Z),
        nth_error ws k = Some win ->
        win = Py.slice [97; 98; 99; 100; 101]
                (Z.of_nat k * stride) (Z.of_nat k * stride + 2)
        /\ Py.len win = Z.min 2 (Py.len [97; 98; 99; 100; 101] - Z.of_nat k * stride)
        /\ (Py.len win = 2
            <-> Z.of_nat k * stride + 2 <= Py.len [97; 98; 99; 100; 101]))
  /\ (0 = 0 ->
      forall (k : nat) (win : list Z),
        nth_error ws k = Some win ->
        (S k < List.length ws)%nat ->
        Py.len win = 2).
Proof.
  apply (window_sizes ByteLevel.world "abcde" default_model ByteLevel.enc
           [97; 98; 99; 100; 101] 2 0);
    [reflexivity | reflexivity | lia | lia].
Defined.

(** C3 as stated fails: with windows of 3 and an overlap of 2 the text
    "abcde" gives the windows abc, bcd, cde, de, e; the fourth chunk is
    not the last one and its window has 2 tokens. *)
Lemma window_sizes_counterexample :
  let run := tokenize_and_chunk ByteLevel.world "abcde" 3 2 default_model in
  let ws := decode_calls (trace run) in
  outcome run = inr ["abc"; "bcd"; "cde"; "de"; "e"]
  /\ nth_error ws 3 = Some [100; 101]
  /\ (3 + 1 < List.length ws)%nat
  /\ Py.len [100; 101] <> 3.
Proof. repeat split; try reflexivity. - vm_compute. lia. - vm_compute. discriminate. Qed.

(** C4: under a valid configuration with [overlap > 0], when the window
    of chunk [i] is full, the window of chunk [i+1] exists and its first
    [overlap] tokens are the last [overlap] tokens of the window of
    chunk [i]. *)
Theorem consecutive_overlap (W : World) (text model : string) (enc : Encoding)
    (tokens : list Z) (chunk_size overlap : Z) :
  tiktoken_get_encoding W model = inr enc ->
  encode enc text = inr tokens ->
  0 < chunk_size ->
  0 < overlap < chunk_size ->
  let run := tokenize_and_chunk W text chunk_size overlap model in
  let ws := decode_calls (trace run) in
  outcome run = inr (map (decode enc) ws)
  /\ forall (i : nat) (a : list Z),
       nth_error ws i = Some a ->
       Py.len a = chunk_size ->
       (exists b, nth_error ws (S i) = Some b)
       /\ forall b, nth_error ws (S i) = Some b ->
            skipn (List.length a - Z.to_nat overlap) a = firstn (Z.to_nat overlap) b
            /\ Py.len (firstn (Z.to_nat overlap) b) = overlap.
Proof.
  intros Henc Htok Hsize Hov run ws. subst run ws.
  rewrite (tokenize_and_chunk_windows W text model enc tokens Henc Htok) by lia.
  unfold trace, outcome. simpl fst. simpl snd.
  change (decode_calls (EvGetEncoding model :: EvEncode text
                          :: map EvDecode (chunk_windows tokens chunk_size overlap)))
    with (decode_calls (map EvDecode (chunk_windows tokens chunk_size overlap))).
  rewrite decode_calls_decodes.
  split; [reflexivity |].
  intros i a Ha Hfull. split.
  - apply (chunk_windows_next tokens chunk_size overlap) with (win := a);
      (assumption || lia).
  - intros b Hb.
    apply (chunk_windows_shared tokens chunk_size overlap) with (k := i);
      (assumption || lia).
Qed.

Lemma consecutive_overlap_witness :
  let run := tokenize_and_chunk ByteLevel.world "abcde" 3 1 default_model in
  let ws := decode_calls (trace run) in
  outcome run = inr (map (decode ByteLevel.enc) ws)
  /\ forall (i : nat) (a : list Z),
       nth_error ws i = Some a ->
       Py.len a = 3 ->
       (exists b, nth_error ws (S i) = Some b)
       /\ forall b, nth_error ws (S i) = Some b ->
            skipn (List.length a - Z.to_nat 1) a = firstn (Z.to_nat 1) b
            /\ Py.len (firstn (Z.to_nat 1) b) = 1.
Proof.
  apply (consecutive_overlap ByteLevel.world "abcde" default_model ByteLevel.enc
           [97; 98; 99; 100; 101] 3 1);
    [reflexivity | reflexivity | lia | lia].
Defined.

(** C5 (as the code has it): under a valid configuration every chunk is
    the decoding of a window of at most [chunk_size] tokens; re-encoding
    a chunk gives at most [chunk_size] tokens whenever it does not give
    more tokens than the window of that chunk had. *)
Theorem reencoded_chunk_bound (W : World) (text model : string) (enc : Encoding)
    (tokens : list Z) (chunk_size overlap : Z) :
  tiktoken_get_encoding W model = inr enc ->
  encode enc text = inr tokens ->
  0 < chunk_size ->
  0 <= overlap < chunk_size ->
  let run := tokenize_and_chunk W text chunk_size overlap model in
  let ws := decode_calls (trace run) in
  exists chunks,
    outcome run = inr chunks
    /\ chunks = map (decode enc) ws
    /\ (forall win, In win ws -> Py.len win <= chunk_size)
    /\ (forall win ts', In win ws ->
                        encode enc (decode enc win) = inr ts' ->
                        Py.len ts' <= Py.len win ->
                        Py.len ts' <= chunk_size).
Proof.
  intros Henc Htok Hsize Hov run ws. subst run ws.
  rewrite (tokenize_and_chunk_windows W text model enc tokens Henc Htok) by lia.
  unfold trace, outcome. simpl fst. simpl snd.
  change (decode_calls (EvGetEncoding model :: EvEncode text
                          :: map EvDecode (chunk_windows tokens chunk_size overlap)))
    with (decode_calls (map EvDecode (chunk_windows tokens chunk_size overlap))).
  rewrite decode_calls_decodes.
  assert (Hwin : forall win, In win (chunk_windows tokens chunk_size overlap) ->
                             Py.len win <= chunk_size).
  { intros win Hin. apply In_nth_error in Hin. destruct Hin as [k Hk].
    rewrite (chunk_windows_nth_len tokens chunk_size overlap Hsize Hov k win Hk). lia. }
  eexists. split; [reflexivity |]. split; [reflexivity |]. split; [exact Hwin |].
  intros win ts' Hin _ Hle. specialize (Hwin win Hin). lia.
Qed.

Lemma reencoded_chunk_bound_witness :
  exists chunks,
    outcome (tokenize_and_chunk ByteLevel.world "abcde" 3 1 default_model)
    = inr chunks
    /\ forall chunk, In chunk chunks ->
         exists ts', encode ByteLevel.enc chunk = inr ts' /\ Py.len ts' <= 3.
Proof.
  destruct (reencoded_chunk_bound ByteLevel.world "abcde" default_model
              ByteLevel.enc [97; 98; 99; 100; 101] 3 1)
    as [chunks [Hout [Hch [_ Hre]]]];
    [reflexivity | reflexivity | lia | lia |].
  exists chunks. split; [exact Hout |].
  intros chunk Hin. rewrite Hch in Hin. apply in_map_iff in Hin.
  destruct Hin as [win [<- Hw]].
  pose proof Hw as Hcases. vm_compute in Hcases.
  destruct Hcases as [<- | [<- | [<- | []]]];
    (eexists; split; [reflexivity |];
     eapply Hre; [exact Hw | reflexivity | vm_compute; discriminate]).
Defined.

(** C5 as stated fails for a byte-level vocabulary that decodes with
    replacement: the two bytes of U+00E9 are two tokens; with windows of
    1 each chunk is a lone byte, decoded to U+FFFD, which re-encodes to
    three tokens. *)
Lemma reencoded_chunk_bound_counterexample :
  let e_acute := String (ascii_of_nat 195) (String (ascii_of_nat 169) EmptyString) in
  let fffd := String (ascii_of_nat 239) (String (ascii_of_nat 191)
                (String (ascii_of_nat 189) EmptyString)) in
  encode ByteLevel.enc e_acute = inr [195; 169]
  /\ decode ByteLevel.enc [195; 169] = e_acute
  /\ outcome (tokenize_and_chunk ByteLevel.world e_acute 1 0 default_model)
     = inr [fffd; fffd]
  /\ encode ByteLevel.enc fffd = inr [239; 191; 189]
  /\ ~ Py.len [239; 191; 189] <= 1.
Proof. repeat split; try reflexivity. unfold Py.len. simpl. lia. Qed.

(** C2 (as the code has it): no configuration is checked.  When the
    vocabulary loads and the text encodes, the call fails exactly when
    [overlap = chunk_size], with the [ValueError] of [range], raised
    after the text has been encoded; with [overlap > chunk_size] it
    returns no chunk, and with [overlap < chunk_size] (whatever the signs
    of the two) it returns chunks. *)
Theorem configuration_outcomes (W : World) (text model : string) (enc : Encoding)
    (tokens : list Z) (chunk_size overlap : Z) :
  tiktoken_get_encoding W model = inr enc ->
  encode enc text = inr tokens ->
  let run := tokenize_and_chunk W text chunk_size overlap model in
  ((exists e, outcome run = inl e) <-> overlap = chunk_size)
  /\ (overlap = chunk_size ->
      run = ([EvGetEncoding model; EvEncode text],
             inl (Py.ValueError "range() arg 3 must not be zero")))
  /\ (chunk_size < overlap -> outcome run = inr [])
  /\ (overlap < chunk_size -> exists chunks, outcome run = inr chunks)
  /\ In (EvEncode text) (trace run).
Proof.
  intros Henc Htok run. subst run.
  destruct (Z.eq_dec overlap chunk_size) as [-> | Hne].
  - rewrite (tokenize_and_chunk_zero_stride W text model enc tokens Henc Htok).
    unfold outcome, trace. simpl.
    repeat split; try (intros; lia); try reflexivity; eauto.
  - rewrite (tokenize_and_chunk_windows W text model enc tokens Henc Htok) by lia.
    unfold outcome, trace. simpl.
    repeat split; try (intros; lia); eauto.
    + intros [e He]. discriminate He.
    + intros Hlt. now rewrite chunk_windows_down.
Qed.

Lemma configuration_outcomes_witness :
  let run := tokenize_and_chunk ByteLevel.world "abcde" 2 2 default_model in
  ((exists e, outcome run = inl e) <-> 2 = 2)
  /\ (2 = 2 ->
      run = ([EvGetEncoding default_model; EvEncode "abcde"],
             inl (Py.ValueError "range() arg 3 must not be zero")))
  /\ (2 < 2 -> outcome run = inr [])
  /\ (2 < 2 -> exists chunks, outcome run = inr chunks)
  /\ In (EvEncode "abcde") (trace run).
Proof.
  apply (configuration_outcomes ByteLevel.world "abcde" default_model
           ByteLevel.enc [97; 98; 99; 100; 101] 2 2);
    reflexivity.
Defined.

(** C2 as stated fails: with [overlap > window_size] the call returns
    an empty list without failing; with a window of 0 and an overlap of
    -1 it returns five empty chunks; with [overlap = window_size] the
    failure is a [ValueError] and the text has been encoded before it. *)
Lemma configuration_outcomes_counterexample :
  tokenize_and_chunk ByteLevel.world "abcde" 2 3 default_model
  = ([EvGetEncoding default_model; EvEncode "abcde"], inr [])
  /\ outcome (tokenize_and_chunk ByteLevel.world "abcde" 0 (-1) default_model)
     = inr [""; ""; ""; ""; ""]
  /\ tokenize_and_chunk ByteLevel.world "abcde" 2 2 default_model
     = ([EvGetEncoding default_model; EvEncode "abcde"],
        inl (Py.Raise "ValueError" "range() arg 3 must not be zero"))
  /\ "ValueError" <> "ConfigurationError".
Proof. repeat split; try reflexivity. discriminate. Qed.

(** C9 (as the code has it): for [overlap >= chunk_size] nothing guards
    the configuration, and the run ends right after the encoding: a zero
    stride makes [range] raise [ValueError], a negative stride gives an
    empty [range], so no window is decoded and no chunk is returned. *)
Theorem degenerate_stride (W : World) (text model : string) (enc : Encoding)
    (tokens : list Z) (chunk_size overlap : Z) :
  tiktoken_get_encoding W model = inr enc ->
  encode enc text = inr tokens ->
  chunk_size <= overlap ->
  tokenize_and_chunk W text chunk_size overlap model
  = ([EvGetEncoding model; EvEncode text],
     if overlap =? chunk_size
     then inl (Py.ValueError "range() arg 3 must not be zero")
     else inr []).
Proof.
  intros Henc Htok Hov.
  destruct (Z.eqb_spec overlap chunk_size) as [-> | Hne].
  - apply (tokenize_and_chunk_zero_stride W text model enc tokens Henc Htok).
  - rewrite (tokenize_and_chunk_windows W text model enc tokens Henc Htok) by lia.
    rewrite chunk_windows_down by lia. reflexivity.
Qed.

Lemma degenerate_stride_witness :
  tokenize_and_chunk ByteLevel.world "abcde" 2 3 default_model
  = ([EvGetEncoding default_model; EvEncode "abcde"],
     if 3 =? 2
     then inl (Py.ValueError "range() arg 3 must not be zero")
     else inr []).
Proof.
  apply (degenerate_stride ByteLevel.world "abcde" default_model
           ByteLevel.enc [97; 98; 99; 100; 101] 2 3);
    [reflexivity | reflexivity | lia].
Defined.

(** C9 as stated fails: with [overlap = window_size] the run stops with
    a [ValueError], and with [overlap > window_size] it returns the empty
    list; both runs end after two calls, and neither decodes a window, so
    there is no output in any order. *)
Lemma degenerate_stride_counterexample :
  tokenize_and_chunk ByteLevel.world "abcde" 2 2 default_model
  = ([EvGetEncoding default_model; EvEncode "abcde"],
     inl (Py.ValueError "range() arg 3 must not be zero"))
  /\ tokenize_and_chunk ByteLevel.world "abcde" 2 3 default_model
     = ([EvGetEncoding default_model; EvEncode "abcde"], inr [])
  /\ decode_calls
       (trace (tokenize_and_chunk ByteLevel.world "abcde" 2 3 default_model)) = [].
Proof. repeat split; reflexivity. Qed.

(* ===================================================================== *)
(** ** Lemmas on the run of [jsonify] *)
(* ===================================================================== *)

Lemma bind_assoc {A B C : Type} (m : M A) (f : A -> M B) (g : B -> M C) :
  bind (bind m f) g = bind m (fun x => bind (f x) g).
Proof.
  destruct m as [tr [e | a]]; simpl; [reflexivity |].
  destruct (f a) as [tr' [e' | b]]; simpl; [reflexivity |].
  destruct (g b) as [tr'' r]. now rewrite app_assoc.
Qed.

Lemma fold_left_append {A B : Type} (f : B -> A) (xs : list B) (acc : list A) :
  fold_left (fun d x => d ++ [f x]) xs acc = acc ++ map f xs.
Proof.
  revert acc. induction xs as [| x xs IH]; intros acc; simpl.
  - now rewrite app_nil_r.
  - rewrite IH, <- app_assoc. reflexivity.
Qed.

Lemma no_output_app (t1 t2 : list event) :
  no_output t1 -> no_output t2 -> no_output (t1 ++ t2).
Proof.
  intros H1 H2 ev Hin. apply in_app_or in Hin. destruct Hin; auto.
Qed.

Lemma no_output_decodes (ws : list (list Z)) : no_output (map EvDecode ws).
Proof.
  intros ev Hin. apply in_map_iff in Hin. now destruct Hin as [w [<- _]].
Qed.

Lemma written_paths_no_output (tr : list event) :
  no_output tr -> written_paths tr = [].
Proof.
  induction tr as [| ev tr IH]; intros H; [reflexivity |].
  assert (Hev : is_output ev = false) by (apply H; now left).
  assert (Htr : written_paths tr = []) by (apply IH; intros x Hx; apply H; now right).
  unfold written_paths in *. simpl. rewrite Htr.
  destruct ev; simpl in *; (reflexivity || discriminate).
Qed.


Section Run.

Variable W : World.
Variables chunk_size overlap : Z.

Lemma foreach_extract_page (pages : list page) (acc : list string) :
  trace (foreach pages acc extract_page) = [].
Proof.
  revert acc. induction pages as [| p pages IH]; intros acc; [reflexivity |].
  simpl. destruct p as [e | [[| c t] |]]; simpl; try reflexivity;
    match goal with
    | |- context [foreach pages ?a extract_page] =>
        specialize (IH a); destruct (foreach pages a extract_page); simpl in *; exact IH
    end.
Qed.

(** Extraction makes one call: opening the document. *)
Lemma extract_text_trace (pdf_path : string) :
  trace (extract_text_from_pdf W pdf_path) = [EvPdfOpen pdf_path].
Proof.
  unfold extract_text_from_pdf, call.
  destruct (pdfplumber_open W pdf_path) as [e | pages]; cbn [bind try_except].
  - destruct (Py.is_Exception e); reflexivity.
  - pose proof (foreach_extract_page pages []) as Htr.
    destruct (foreach pages [] extract_page) as [tr [e | full_text]];
      unfold trace in Htr; cbn [fst app try_except] in *; subst tr;
      [destruct (Py.is_Exception e) |]; reflexivity.
Qed.

(** Every way a run of the chunker can go. *)
Lemma tokenize_and_chunk_cases (text model : string) :
  tokenize_and_chunk W text chunk_size overlap model
  = match tiktoken_get_encoding W model with
    | inl e => ([EvGetEncoding model], inl e)
    | inr enc =>
        match encode enc text with
        | inl e => ([EvGetEncoding model; EvEncode text], inl e)
        | inr tokens =>
            if chunk_size - overlap =? 0
            then ([EvGetEncoding model; EvEncode text],
                  inl (Py.ValueError "range() arg 3 must not be zero"))
            else ([EvGetEncoding model; EvEncode text]
                    ++ map EvDecode (chunk_windows tokens chunk_size overlap),
                  inr (map (decode enc)
                           (chunk_windows tokens chunk_size overlap)))
        end
    end.
Proof.
  destruct (tiktoken_get_encoding W model) as [e | enc] eqn:Henc.
  - unfold tokenize_and_chunk, call. now rewrite Henc.
  - destruct (encode enc text) as [e | tokens] eqn:Htok.
    + unfold tokenize_and_chunk, call. rewrite Henc. simpl. now rewrite Htok.
    + destruct (Z.eqb_spec (chunk_size - overlap) 0) as [Hz | Hnz].
      * replace overlap with chunk_size by lia.
        now apply tokenize_and_chunk_zero_stride with (enc := enc) (tokens := tokens).
      * now apply tokenize_and_chunk_windows.
Qed.

Lemma tokenize_and_chunk_no_output (text model : string) :
  no_output (trace (tokenize_and_chunk W text chunk_size overlap model)).
Proof.
  rewrite tokenize_and_chunk_cases.
  destruct (tiktoken_get_encoding W model) as [e | enc].
  - intros ev [<- | []]. reflexivity.
  - destruct (encode enc text) as [e | tokens];
      [| destruct (chunk_size - overlap =? 0)];
      try (intros ev [<- | [<- | []]]; reflexivity).
    apply (no_output_app [EvGetEncoding model; EvEncode text]);
      [| apply no_output_decodes].
    intros ev [<- | [<- | []]]; reflexivity.
Qed.

(** One chunk per decode call. *)
Lemma tokenize_and_chunk_decodes (text model : string) (chunks : list string) :
  outcome (tokenize_and_chunk W text chunk_size overlap model) = inr chunks ->
  List.length chunks
  = List.length (decode_calls (trace (tokenize_and_chunk W text chunk_size overlap model))).
Proof.
  rewrite tokenize_and_chunk_cases.
  destruct (tiktoken_get_encoding W model) as [e | enc]; [discriminate |].
  destruct (encode enc text) as [e | tokens]; [discriminate |].
  destruct (chunk_size - overlap =? 0); [discriminate |].
  unfold outcome, trace. simpl. intros H. injection H as <-.
  change (decode_calls (EvGetEncoding model :: EvEncode text
                          :: map EvDecode (chunk_windows tokens chunk_size overlap)))
    with (decode_calls (map EvDecode (chunk_windows tokens chunk_size overlap))).
  now rewrite decode_calls_decodes, length_map.
Qed.

Lemma document_chunks_no_output (pdf_path : string) :
  no_output (trace (document_chunks W chunk_size overlap pdf_path)).
Proof.
  unfold document_chunks.
  pose proof (extract_text_trace pdf_path) as Htr.
  destruct (extract_text_from_pdf W pdf_path) as [tr [e | full_text]];
    unfold trace in *; simpl in *; subst tr.
  - intros ev [<- | []]. reflexivity.
  - pose proof (tokenize_and_chunk_no_output full_text default_model) as Hno.
    destruct (tokenize_and_chunk W full_text chunk_size overlap default_model)
      as [tr' r]. simpl in *.
    intros ev [<- | Hin]; [reflexivity | now apply Hno].
Qed.

Lemma document_chunks_decodes (pdf_path : string) (chunks : list string) :
  outcome (document_chunks W chunk_size overlap pdf_path) = inr chunks ->
  List.length chunks
  = List.length (decode_calls (trace (document_chunks W chunk_size overlap pdf_path))).
Proof.
  unfold document_chunks.
  pose proof (extract_text_trace pdf_path) as Htr.
  destruct (extract_text_from_pdf W pdf_path) as [tr [e | full_text]];
    unfold trace in *; simpl in *; subst tr; [discriminate |].
  pose proof (tokenize_and_chunk_decodes full_text default_model) as Hd.
  destruct (tokenize_and_chunk W full_text chunk_size overlap default_model)
    as [tr' r]. unfold outcome, trace in *. simpl in *.
  exact (Hd chunks).
Qed.

(** The loop body, seen as the processing of the document followed by
    the appending of its records. *)
Lemma jsonify_step_document (data : list chunk_record) (pdf_path : string) :
  jsonify_step W chunk_size overlap data pdf_path
  = (chunks <- document_chunks W chunk_size overlap pdf_path ;;
     ret (data ++ map (mkRecord (label_of W pdf_path)) chunks)).
Proof.
  unfold jsonify_step, document_chunks, label_of. rewrite bind_assoc.
  destruct (extract_text_from_pdf W pdf_path) as [tr [e | full_text]];
    simpl; [reflexivity |].
  destruct (tokenize_and_chunk W full_text chunk_size overlap default_model)
    as [tr' [e | chunks]]; simpl; [reflexivity |].
  now rewrite fold_left_append.
Qed.

(** The loop over the documents when each of them is processed
    without an exception. *)
Lemma foreach_documents_ok (paths : list string) (data : list chunk_record) :
  (forall p, In p paths ->
             exists chunks, outcome (document_chunks W chunk_size overlap p) = inr chunks) ->
  exists tr,
    foreach paths data (jsonify_step W chunk_size overlap)
    = (tr, inr (data ++ flat_map (doc_records W chunk_size overlap) paths))
    /\ no_output tr
    /\ List.length (decode_calls tr)
       = List.length (flat_map (doc_records W chunk_size overlap) paths).
Proof.
  revert data. induction paths as [| p paths IH]; intros data Hok.
  - exists []. simpl. rewrite app_nil_r. repeat split. intros ev [].
  - destruct (Hok p (or_introl eq_refl)) as [chunks Hp].
    simpl foreach. rewrite jsonify_step_document.
    pose proof (document_chunks_no_output p) as Hno.
    pose proof (document_chunks_decodes p chunks Hp) as Hdec.
    assert (Hrec : doc_records W chunk_size overlap p
                   = map (mkRecord (label_of W p)) chunks).
    { unfold doc_records, chunks_of. now rewrite Hp. }
    destruct (document_chunks W chunk_size overlap p) as [tr1 r1].
    unfold outcome, trace in *. simpl in Hp, Hno, Hdec. subst r1. simpl.
    destruct (IH (data ++ map (mkRecord (label_of W p)) chunks))
      as [tr2 [E2 [Hno2 Hdec2]]].
    { intros q Hq. apply Hok. now right. }
    rewrite app_nil_r, E2. exists (tr1 ++ tr2).
    rewrite Hrec, <- app_assoc. repeat split.
    + now apply no_output_app.
    + rewrite decode_calls_app, !length_app, <- Hdec, Hdec2, length_map.
      reflexivity.
Qed.

(** The loop over the documents when one of them raises: the loop
    stops there with that exception. *)
Lemma foreach_documents_raise (pre post : list string) (p : string)
    (e : Py.exn) (data : list chunk_record) :
  (forall q, In q pre ->
             exists chunks, outcome (document_chunks W chunk_size overlap q) = inr chunks) ->
  outcome (document_chunks W chunk_size overlap p) = inl e ->
  exists tr,
    foreach (pre ++ p :: post) data (jsonify_step W chunk_size overlap)
    = (tr, inl e)
    /\ no_output tr.
Proof.
  revert data. induction pre as [| q pre IH]; intros data Hok Hp.
  - simpl. rewrite jsonify_step_document.
    pose proof (document_chunks_no_output p) as Hno.
    destruct (document_chunks W chunk_size overlap p) as [tr1 r1].
    unfold outcome, trace in *. simpl in Hp, Hno. subst r1. simpl.
    exists tr1. split; [reflexivity | exact Hno].
  - destruct (Hok q (or_introl eq_refl)) as [chunks Hq].
    simpl. rewrite jsonify_step_document.
    pose proof (document_chunks_no_output q) as Hno.
    destruct (document_chunks W chunk_size overlap q) as [tr1 r1].
    unfold outcome, trace in Hq, Hno. simpl in Hq, Hno. subst r1. simpl.
    destruct (IH (data ++ map (mkRecord (label_of W q)) chunks))
      as [tr2 [E2 Hno2]].
    { intros x Hx. apply Hok. now right. }
    { exact Hp. }
    rewrite app_nil_r, E2. exists (tr1 ++ tr2).
    split; [reflexivity | now apply no_output_app].
Qed.

(** The documents up to the first one that raises, if any. *)
Lemma first_failure (paths : list string) :
  (forall p, In p paths ->
             exists chunks, outcome (document_chunks W chunk_size overlap p) = inr chunks)
  \/ exists pre p post e,
       paths = pre ++ p :: post
       /\ (forall q, In q pre ->
                     exists chunks,
                       outcome (document_chunks W chunk_size overlap q) = inr chunks)
       /\ outcome (document_chunks W chunk_size overlap p) = inl e.
Proof.
  induction paths as [| p paths IH].
  - left. intros p [].
  - destruct (outcome (document_chunks W chunk_size overlap p)) as [e | chunks] eqn:Hp.
    + right. exists [], p, paths, e. repeat split; [intros q [] | exact Hp].
    + destruct IH as [Hall | [pre [q [post [e [-> [Hpre Hq]]]]]]].
      * left. intros q [<- | Hin]; [eauto | now apply Hall].
      * right. exists (p :: pre), q, post, e. repeat split; [| exact Hq].
        intros x [<- | Hin]; [eauto | now apply Hpre].
Qed.

(** The run of [jsonify] when every document is processed: the calls of
    the loop, then [open], [json.dump] and [print] up to the first that
    raises. *)
Lemma jsonify_after_loop (paths : list string) (output_filename : string) :
  (forall p, In p paths ->
     exists chunks, outcome (document_chunks W chunk_size overlap p) = inr chunks) ->
  exists tr,
    no_output tr
    /\ List.length (decode_calls tr)
       = List.length (flat_map (doc_records W chunk_size overlap) paths)
    /\ jsonify W paths chunk_size overlap output_filename
       = let path := output_path_of output_filename in
         let data := flat_map (doc_records W chunk_size overlap) paths in
         let msg := saved_message output_filename (Py.len data) in
         match open_w W path with
         | Some e => (tr ++ [EvOpenWrite path], inl e)
         | None =>
             match json_dump W path data with
             | Some e => (tr ++ [EvOpenWrite path; EvJsonDump path data], inl e)
             | None =>
                 match print_stdout W msg with
                 | Some e =>
                     (tr ++ [EvOpenWrite path; EvJsonDump path data; EvPrint msg],
                      inl e)
                 | None =>
                     (tr ++ [EvOpenWrite path; EvJsonDump path data; EvPrint msg],
                      inr Py.None_)
                 end
             end
         end.
Proof.
  intros Hall.
  destruct (foreach_documents_ok paths [] Hall) as [tr [E [Hno Hdec]]].
  exists tr. split; [exact Hno |]. split; [exact Hdec |].
  unfold jsonify. rewrite E. rewrite app_nil_l. cbv zeta.
  unfold saved_message, output_path_of.
  destruct (open_w W _); [reflexivity |].
  cbn [bind call ret app returns_nothing].
  destruct (json_dump W _ _); [reflexivity |].
  cbn [bind call ret app returns_nothing].
  destruct (print_stdout W _); reflexivity.
Qed.

(** Every way a run of [jsonify] can go: a document raises; or all the
    documents are processed and [open] raises, or [json.dump] raises, or
    [print] raises, or the run completes. *)
Lemma jsonify_cases (paths : list string) (output_filename : string) :
  (exists tr e,
      jsonify W paths chunk_size overlap output_filename = (tr, inl e)
      /\ no_output tr
      /\ exists pre p post,
           paths = pre ++ p :: post
           /\ (forall q, In q pre ->
                 exists chunks,
                   outcome (document_chunks W chunk_size overlap q) = inr chunks)
           /\ outcome (document_chunks W chunk_size overlap p) = inl e)
  \/ (exists tr e,
        jsonify W paths chunk_size overlap output_filename
        = (tr ++ [EvOpenWrite (output_path_of output_filename)], inl e)
        /\ no_output tr
        /\ open_w W (output_path_of output_filename) = Some e
        /\ forall p, In p paths ->
             exists chunks,
               outcome (document_chunks W chunk_size overlap p) = inr chunks)
  \/ (exists tr e,
        jsonify W paths chunk_size overlap output_filename
        = (tr ++ [EvOpenWrite (output_path_of output_filename);
                  EvJsonDump (output_path_of output_filename)
                    (flat_map (doc_records W chunk_size overlap) paths)],
           inl e)
        /\ no_output tr
        /\ open_w W (output_path_of output_filename) = None
        /\ json_dump W (output_path_of output_filename)
             (flat_map (doc_records W chunk_size overlap) paths) = Some e
        /\ forall p, In p paths ->
             exists chunks,
               outcome (document_chunks W chunk_size overlap p) = inr chunks)
  \/ (exists tr e,
        jsonify W paths chunk_size overlap output_filename
        = (tr ++ [EvOpenWrite (output_path_of output_filename);
                  EvJsonDump (output_path_of output_filename)
                    (flat_map (doc_records W chunk_size overlap) paths);
                  EvPrint (saved_message output_filename
                             (Py.len (flat_map (doc_records W chunk_size overlap) paths)))],
           inl e)
        /\ no_output tr
        /\ open_w W (output_path_of output_filename) = None
        /\ json_dump W (output_path_of output_filename)
             (flat_map (doc_records W chunk_size overlap) paths) = None
        /\ print_stdout W
             (saved_message output_filename
                (Py.len (flat_map (doc_records W chunk_size overlap) paths)))
           = Some e
        /\ forall p, In p paths ->
             exists chunks,
               outcome (document_chunks W chunk_size overlap p) = inr chunks)
  \/ (exists tr,
        jsonify W paths chunk_size overlap output_filename
        = (tr ++ [EvOpenWrite (output_path_of output_filename);
                  EvJsonDump (output_path_of output_filename)
                    (flat_map (doc_records W chunk_size overlap) paths);
                  EvPrint (saved_message output_filename
                             (Py.len (flat_map (doc_records W chunk_size overlap) paths)))],
           inr Py.None_)
        /\ no_output tr
        /\ List.length (decode_calls tr)
           = List.length (flat_map (doc_records W chunk_size overlap) paths)
        /\ open_w W (output_path_of output_filename) = None
        /\ forall p, In p paths ->
             exists chunks,
               outcome (document_chunks W chunk_size overlap p) = inr chunks).
Proof.
  destruct (first_failure paths) as [Hall | [pre [p [post [e [-> [Hpre Hp]]]]]]].
  - right. destruct (jsonify_after_loop paths output_filename Hall)
      as [tr [Hno [Hdec Erun]]].
    cbv zeta in Erun. rewrite Erun. clear Erun.
    set (data := flat_map (doc_records W chunk_size overlap) paths) in *.
    destruct (open_w W (output_path_of output_filename)) as [e |] eqn:Hopen.
    { left. exists tr, e. auto. }
    right.
    destruct (json_dump W (output_path_of output_filename) data)
      as [e |] eqn:Hdump.
    { left. exists tr, e. auto. }
    right.
    destruct (print_stdout W (saved_message output_filename (Py.len data)))
      as [e |] eqn:Hprint.
    { left. exists tr, e. auto 10. }
    right. exists tr. auto.
  - left. destruct (foreach_documents_raise pre post p e [] Hpre Hp) as [tr [E Hno]].
    exists tr, e. unfold jsonify. rewrite E. cbn [bind].
    repeat split; [exact Hno |]. exists pre, p, post. auto.
Qed.

End Run.

(* ===================================================================== *)
(** ** Lemmas on labels and paths *)
(* ===================================================================== *)

Lemma contains_cons (c : ascii) (s sub : string) :
  contains (String c s) sub = false ->
  Py.startswith (String c s) sub = false /\ contains s sub = false.
Proof. cbn [contains]. intros H. now apply orb_false_elim in H. Qed.

Lemma startswith_nil (s : string) : Py.startswith s "" = true.
Proof. destruct s; reflexivity. Qed.

Lemma startswith_dot (c : ascii) (s : string) :
  Py.startswith (String c s) "." = Ascii.eqb "." c.
Proof. cbn [Py.startswith]. rewrite startswith_nil. apply andb_true_r. Qed.

Lemma replace_absent (old new s : string) :
  old <> EmptyString -> contains s old = false -> Py.replace s old new = s.
Proof.
  intros Hold. unfold Py.replace. destruct old as [| a old']; [congruence |].
  induction s as [| c s IH]; intros Hc; [reflexivity |].
  apply contains_cons in Hc. destruct Hc as [Hhead Htail].
  cbn [Py.replace_scan]. rewrite Hhead. f_equal. now apply IH.
Qed.

(** An occurrence of [".pdf"] cannot start in [s] and end in a
    [".pdf"] put after it. *)
Lemma startswith_pdf_app (s : string) :
  s <> EmptyString ->
  Py.startswith s ".pdf" = false ->
  Py.startswith (s ++ ".pdf") ".pdf" = false.
Proof.
  intros Hne Hs.
  destruct s as [| c1 [| c2 [| c3 [| c4 s']]]]; [congruence | | | |];
    cbn [append Py.startswith] in *.
  - destruct (Ascii.eqb "." c1); reflexivity.
  - destruct (Ascii.eqb "." c1), (Ascii.eqb "p" c2); reflexivity.
  - destruct (Ascii.eqb "." c1), (Ascii.eqb "p" c2), (Ascii.eqb "d" c3); reflexivity.
  - rewrite startswith_nil in *. exact Hs.
Qed.

Lemma replace_pdf_suffix (stem : string) :
  contains stem ".pdf" = false ->
  Py.replace (stem ++ ".pdf") ".pdf" "" = stem.
Proof.
  unfold Py.replace. induction stem as [| c stem IH]; intros Hc; [reflexivity |].
  apply contains_cons in Hc. destruct Hc as [Hhead Htail].
  apply startswith_pdf_app in Hhead; [| discriminate].
  cbn [append] in Hhead |- *. cbn [Py.replace_scan]. rewrite Hhead.
  f_equal. now apply IH.
Qed.

Lemma contains_app_dot (a : string) : contains (a ++ ".pdf") "." = true.
Proof.
  induction a as [| c a IH]; [reflexivity |].
  cbn [append contains]. rewrite IH. apply orb_true_r.
Qed.

Lemma splitext_root_pdf (named : bool) (stem : string) :
  named = true \/ all_dots stem = false ->
  splitext_root named (stem ++ ".pdf") = stem.
Proof.
  revert named. induction stem as [| c stem IH]; intros named Hn.
  - destruct Hn as [-> | Hd]; [reflexivity | discriminate Hd].
  - cbn [append splitext_root]. rewrite contains_app_dot.
    cbn [all_dots] in Hn.
    destruct (Ascii.eqb c ".") eqn:Hdot.
    + cbn [negb]. rewrite andb_false_r. f_equal. apply IH.
      destruct Hn as [-> | Hd]; [now left | now right].
    + f_equal. apply IH. now left.
Qed.

Lemma splitext_root_no_dot (named : bool) (seg : string) :
  contains seg "." = false -> splitext_root named seg = seg.
Proof.
  revert named. induction seg as [| c seg IH]; intros named Hc; [reflexivity |].
  apply contains_cons in Hc. destruct Hc as [Hhead Htail].
  rewrite startswith_dot, Ascii.eqb_sym in Hhead.
  cbn [splitext_root]. rewrite Hhead. f_equal. now apply IH.
Qed.



(* ===================================================================== *)
(** ** The batch serializer: [jsonify] *)
(* ===================================================================== *)

(** C6 (as the code has it): a run of [jsonify] that completes returns
    [None]; the total number of chunks, one per decode call over all the
    documents, is the length of the dumped collection and is reported
    only in the printed message. *)
Theorem jsonify_returns_none (W : World) (paths : list string)
    (chunk_size overlap : Z) (output_filename : string) (v : Py.value) :
  outcome (jsonify W paths chunk_size overlap output_filename) = inr v ->
  v = Py.None_
  /\ exists tr data,
       trace (jsonify W paths chunk_size overlap output_filename)
       = tr ++ [EvOpenWrite (output_path_of output_filename);
                EvJsonDump (output_path_of output_filename) data;
                EvPrint (saved_message output_filename (Py.len data))]
       /\ no_output tr
       /\ Py.len data = Py.len (decode_calls tr)
       /\ data = flat_map (doc_records W chunk_size overlap) paths.
Proof.
  intros Hv.
  destruct (jsonify_cases W chunk_size overlap paths output_filename)
    as [[tr [e [E _]]] | [[tr [e [E _]]] | [[tr [e [E _]]]
       | [[tr [e [E _]]] | [tr [E [Hno [Hdec _]]]]]]]];
    rewrite E in Hv |- *; unfold outcome, trace in *; simpl in Hv;
    try discriminate Hv.
  injection Hv as <-. split; [reflexivity |].
  exists tr, (flat_map (doc_records W chunk_size overlap) paths).
  simpl fst. unfold Py.len. rewrite Hdec. auto.
Qed.

Lemma jsonify_returns_none_witness :
  Py.None_ = Py.None_
  /\ exists tr data,
       trace (jsonify ByteLevel.world ["C:\books\abcde.pdf"] 3 1 "out.json")
       = tr ++ [EvOpenWrite (output_path_of "out.json");
                EvJsonDump (output_path_of "out.json") data;
                EvPrint (saved_message "out.json" (Py.len data))]
       /\ no_output tr
       /\ Py.len data = Py.len (decode_calls tr)
       /\ data = flat_map (doc_records ByteLevel.world 3 1) ["C:\books\abcde.pdf"].
Proof.
  apply (jsonify_returns_none ByteLevel.world ["C:\books\abcde.pdf"] 3 1
           "out.json" Py.None_).
  reflexivity.
Defined.

(** C6 as stated fails: on one document of three chunks [jsonify] dumps
    three records and prints the count 3, and what it returns is [None],
    not 3. *)
Lemma jsonify_returns_none_counterexample :
  let run := jsonify ByteLevel.world ["C:\books\abcde.pdf"] 3 1 "out.json" in
  In (EvJsonDump (output_path_of "out.json")
        [mkRecord "abcde" "abc";
         mkRecord "abcde" ("c" ++ newline ++ "e");
         mkRecord "abcde" "e"])
     (trace run)
  /\ In (EvPrint (saved_message "out.json" 3)) (trace run)
  /\ outcome run = inr Py.None_
  /\ outcome run <> inr (Py.Int 3).
Proof.
  repeat split; try discriminate; vm_compute; tauto.
Qed.

(** What a dump in the trace of [jsonify] tells. *)
Lemma dumped_data (W : World) (chunk_size overlap : Z) (paths : list string)
    (output_filename path : string) (data : list chunk_record) :
  In (EvJsonDump path data)
     (trace (jsonify W paths chunk_size overlap output_filename)) ->
  path = output_path_of output_filename
  /\ data = flat_map (doc_records W chunk_size overlap) paths
  /\ open_w W (output_path_of output_filename) = None
  /\ forall p, In p paths ->
       exists chunks, outcome (document_chunks W chunk_size overlap p) = inr chunks.
Proof.
  intros Hin.
  assert (Hout : forall tr, no_output tr -> ~ In (EvJsonDump path data) tr).
  { intros tr Hno Hx. apply Hno in Hx. discriminate Hx. }
  destruct (jsonify_cases W chunk_size overlap paths output_filename)
    as [[tr [e [E [Hno _]]]] | [[tr [e [E [Hno _]]]]
       | [[tr [e [E [Hno [Hopen [_ Hall]]]]]]
       | [[tr [e [E [Hno [Hopen [_ [_ Hall]]]]]]]
       | [tr [E [Hno [_ [Hopen Hall]]]]]]]]];
    rewrite E in Hin; unfold trace in Hin; cbn [fst] in Hin.
  - now apply Hout in Hin.
  - apply in_app_or in Hin. destruct Hin as [Hin | [Hin | []]];
      [now apply Hout in Hin | discriminate Hin].
  - apply in_app_or in Hin.
    destruct Hin as [Hin | [Hin | [Hin | []]]];
      [now apply Hout in Hin | discriminate Hin |].
    injection Hin as <- <-. auto.
  - apply in_app_or in Hin.
    destruct Hin as [Hin | [Hin | [Hin | [Hin | []]]]];
      [now apply Hout in Hin | discriminate Hin | | discriminate Hin].
    injection Hin as <- <-. auto.
  - apply in_app_or in Hin.
    destruct Hin as [Hin | [Hin | [Hin | [Hin | []]]]];
      [now apply Hout in Hin | discriminate Hin | | discriminate Hin].
    injection Hin as <- <-. auto.
Qed.

(** C7 (as the code has it): the dumped collection is, document by
    document, the chunks of the document under its label, and the label
    of a path is its final segment with [".pdf"] taken out: for a segment
    [stem ++ ".pdf"] in whose [stem] the text [".pdf"] does not occur, it
    is [stem], which is the segment without its extension (unless the
    stem is made of dots only, when the segment has no extension); for a
    segment in which [".pdf"] does not occur, it is the whole segment,
    which is the segment without its extension when it has no dot. *)
Theorem author_of_records (W : World) (paths : list string)
    (chunk_size overlap : Z) (output_filename path : string)
    (data : list chunk_record) :
  In (EvJsonDump path data)
     (trace (jsonify W paths chunk_size overlap output_filename)) ->
  data = flat_map (fun p => map (mkRecord (Py.replace (os_path_basename W p) ".pdf" ""))
                                (chunks_of W chunk_size overlap p)) paths
  /\ forall p : string,
       (forall stem : string,
           os_path_basename W p = (stem ++ ".pdf")%string ->
           contains stem ".pdf" = false ->
           Py.replace (os_path_basename W p) ".pdf" "" = stem
           /\ (all_dots stem = false ->
               Py.replace (os_path_basename W p) ".pdf" ""
               = strip_extension (os_path_basename W p)))
       /\ (contains (os_path_basename W p) ".pdf" = false ->
           Py.replace (os_path_basename W p) ".pdf" "" = os_path_basename W p
           /\ (contains (os_path_basename W p) "." = false ->
               Py.replace (os_path_basename W p) ".pdf" ""
               = strip_extension (os_path_basename W p))).
Proof.
  intros Hin. split.
  - apply dumped_data in Hin. destruct Hin as [_ [-> _]]. reflexivity.
  - intros p. split.
    + intros stem Hseg Habs. rewrite Hseg.
      rewrite (replace_pdf_suffix stem Habs). split; [reflexivity |].
      intros Hd. unfold strip_extension. symmetry.
      apply splitext_root_pdf. now right.
    + intros Habs.
      rewrite (replace_absent ".pdf" "" (os_path_basename W p)) by (discriminate || exact Habs).
      split; [reflexivity |].
      intros Hnd. unfold strip_extension. symmetry.
      now apply splitext_root_no_dot.
Qed.

Lemma author_of_records_witness :
  [mkRecord "Vol.1" "abcde"]
  = flat_map (fun p => map (mkRecord (Py.replace (NtPath.basename p) ".pdf" ""))
                           (chunks_of one_page_world 500 50 p))
             ["C:\books\Vol.1.pdf"]
  /\ Py.replace (NtPath.basename "C:\books\Vol.1.pdf") ".pdf" "" = "Vol.1"
  /\ Py.replace (NtPath.basename "C:\books\Vol.1.pdf") ".pdf" ""
     = strip_extension (NtPath.basename "C:\books\Vol.1.pdf").
Proof.
  destruct (author_of_records one_page_world ["C:\books\Vol.1.pdf"] 500 50
              "out.json" (output_path_of "out.json") [mkRecord "Vol.1" "abcde"])
    as [Hdata Hlabel]; [vm_compute; tauto |].
  split; [exact Hdata |].
  destruct (Hlabel "C:\books\Vol.1.pdf") as [Hstem _].
  destruct (Hstem "Vol.1") as [H1 H2]; [reflexivity | reflexivity |].
  split; [exact H1 | apply H2; reflexivity].
Defined.

(** C7 as stated fails: the final segment of [x/scan.PDF] is [scan.PDF],
    which without its extension is [scan], and the label written is
    [scan.PDF]. *)
Lemma author_of_records_counterexample :
  In (EvJsonDump (output_path_of "out.json") [mkRecord "scan.PDF" "ab"])
     (trace (jsonify ByteLevel.world ["x/scan.PDF"] 3 1 "out.json"))
  /\ os_path_basename ByteLevel.world "x/scan.PDF" = "scan.PDF"
  /\ strip_extension "scan.PDF" = "scan"
  /\ "scan.PDF" <> strip_extension "scan.PDF".
Proof.
  repeat split; try discriminate. vm_compute. tauto.
Qed.

(** C8: when the extraction or the chunking of some document raises,
    [jsonify] raises the exception of the first such document, and its
    run makes no call that opens, fills or reports an output file. *)
Theorem first_error_aborts (W : World) (paths : list string)
    (chunk_size overlap : Z) (output_filename : string) :
  (exists p e, In p paths
               /\ outcome (document_chunks W chunk_size overlap p) = inl e) ->
  exists pre p post e,
    paths = pre ++ p :: post
    /\ (forall q, In q pre ->
          exists chunks, outcome (document_chunks W chunk_size overlap q) = inr chunks)
    /\ outcome (document_chunks W chunk_size overlap p) = inl e
    /\ outcome (jsonify W paths chunk_size overlap output_filename) = inl e
    /\ no_output (trace (jsonify W paths chunk_size overlap output_filename))
    /\ written_paths (trace (jsonify W paths chunk_size overlap output_filename)) = [].
Proof.
  intros [p [e [Hin Hp]]].
  destruct (jsonify_cases W chunk_size overlap paths output_filename)
    as [[tr [e' [E [Hno [pre [q [post [Hsplit [Hpre Hq]]]]]]]]]
       | [[tr [e' [_ [_ [_ Hall]]]]] | [[tr [e' [_ [_ [_ [_ Hall]]]]]]
       | [[tr [e' [_ [_ [_ [_ [_ Hall]]]]]]] | [tr [_ [_ [_ [_ Hall]]]]]]]]].
  - exists pre, q, post, e'. rewrite E. unfold outcome, trace. simpl.
    repeat split; try assumption. now apply written_paths_no_output.
  - destruct (Hall p Hin) as [chunks Hc]. congruence.
  - destruct (Hall p Hin) as [chunks Hc]. congruence.
  - destruct (Hall p Hin) as [chunks Hc]. congruence.
  - destruct (Hall p Hin) as [chunks Hc]. congruence.
Qed.

Lemma first_error_aborts_witness :
  exists pre p post e,
    ["C:\books\abcde.pdf"; "missing.pdf"; "x/scan.PDF"] = pre ++ p :: post
    /\ (forall q, In q pre ->
          exists chunks, outcome (document_chunks ByteLevel.world 3 1 q) = inr chunks)
    /\ outcome (document_chunks ByteLevel.world 3 1 p) = inl e
    /\ outcome (jsonify ByteLevel.world
                  ["C:\books\abcde.pdf"; "missing.pdf"; "x/scan.PDF"] 3 1 "out.json")
       = inl e
    /\ no_output (trace (jsonify ByteLevel.world
                           ["C:\books\abcde.pdf"; "missing.pdf"; "x/scan.PDF"]
                           3 1 "out.json"))
    /\ written_paths (trace (jsonify ByteLevel.world
                               ["C:\books\abcde.pdf"; "missing.pdf"; "x/scan.PDF"]
                               3 1 "out.json")) = [].
Proof.
  apply (first_error_aborts ByteLevel.world
           ["C:\books\abcde.pdf"; "missing.pdf"; "x/scan.PDF"] 3 1 "out.json").
  exists "missing.pdf",
    (Py.RuntimeError "Error reading PDF: No such file or directory").
  split; [simpl; tauto | reflexivity].
Defined.




(* ===================================================================== *)
(** ** The extractor: [extract_text_from_pdf] *)
(* ===================================================================== *)

Lemma foreach_extract_kept (texts : list (option string)) (acc : list string) :
  foreach (map inr texts) acc extract_page = ([], inr (acc ++ kept_texts texts)).
Proof.
  revert acc. induction texts as [| t texts IH]; intros acc.
  - simpl. unfold ret. now rewrite app_nil_r.
  - change (map inr (t :: texts)) with (@inr Py.exn _ t :: map inr texts).
    cbn [foreach]. destruct t as [[| c s] |]; cbn [extract_page];
      unfold ret; cbn [bind]; rewrite IH; cbn [app]; try reflexivity.
    unfold kept_texts. cbn [flat_map]. now rewrite <- app_assoc.
Qed.

Lemma foreach_extract_raise (texts : list (option string)) (cause : Py.exn)
    (rest : list page) (acc : list string) :
  foreach (map inr texts ++ inl cause :: rest) acc extract_page = ([], inl cause).
Proof.
  revert acc. induction texts as [| t texts IH]; intros acc.
  - reflexivity.
  - change (map inr (t :: texts) ++ inl cause :: rest)
      with (@inr Py.exn _ t :: (map inr texts ++ inl cause :: rest)).
    cbn [foreach]. destruct t as [[| c s] |]; cbn [extract_page];
      unfold ret; cbn [bind]; rewrite IH; reflexivity.
Qed.

(** The pages up to the first one that raises, if any. *)
Lemma pages_split (pages : list page) :
  (exists texts, pages = map inr texts)
  \/ (exists texts cause rest, pages = map inr texts ++ inl cause :: rest).
Proof.
  induction pages as [| p pages IH].
  - left. now exists [].
  - destruct p as [cause | t].
    + right. now exists [], cause, pages.
    + destruct IH as [[texts ->] | [texts [cause [rest ->]]]].
      * left. now exists (t :: texts).
      * right. now exists (t :: texts), cause, rest.
Qed.

(** X1: when every page of the document returns from [extract_text],
    the result is the texts of the pages that are neither [None] nor
    empty, in page order, joined by newlines; a document is opened by one
    call. *)
Theorem extract_text_pages (W : World) (pdf_path : string)
    (texts : list (option string)) :
  pdfplumber_open W pdf_path = inr (map inr texts) ->
  extract_text_from_pdf W pdf_path
  = ([EvPdfOpen pdf_path], inr (Py.join newline (kept_texts texts))).
Proof.
  intros Hopen. unfold extract_text_from_pdf, call. rewrite Hopen.
  cbn [bind]. rewrite foreach_extract_kept. reflexivity.
Qed.

Lemma extract_text_pages_witness :
  extract_text_from_pdf ByteLevel.world "C:\books\abcde.pdf"
  = ([EvPdfOpen "C:\books\abcde.pdf"],
     inr (Py.join newline (kept_texts [Some "abc"; None; Some "e"]))).
Proof.
  apply (extract_text_pages ByteLevel.world "C:\books\abcde.pdf"
           [Some "abc"; None; Some "e"]).
  reflexivity.
Defined.

(** X2: when the document opens and a page raises, the first page that
    raises decides: if its exception is an [Exception], the function
    raises a [RuntimeError] whose message is ["Error reading PDF: "]
    followed by the message of that exception; if it is not (a
    [KeyboardInterrupt], a [SystemExit]), that exception leaves as it
    is.  The texts of the pages before it are dropped. *)
Theorem extract_text_page_raises (W : World) (pdf_path : string)
    (texts : list (option string)) (cause : Py.exn) (rest : list page) :
  pdfplumber_open W pdf_path = inr (map inr texts ++ inl cause :: rest) ->
  extract_text_from_pdf W pdf_path
  = ([EvPdfOpen pdf_path],
     inl (if Py.is_Exception cause
          then Py.RuntimeError ("Error reading PDF: " ++ Py.exn_msg cause)%string
          else cause)).
Proof.
  intros Hopen. unfold extract_text_from_pdf, call. rewrite Hopen.
  cbn [bind]. rewrite foreach_extract_raise. cbn [app try_except].
  destruct (Py.is_Exception cause); reflexivity.
Qed.

Lemma extract_text_page_raises_witness :
  extract_text_from_pdf bad_page_world "a.pdf"
  = ([EvPdfOpen "a.pdf"],
     inl (if Py.is_Exception (Py.Raise "PDFSyntaxError" "bad page")
          then Py.RuntimeError
                 ("Error reading PDF: "
                  ++ Py.exn_msg (Py.Raise "PDFSyntaxError" "bad page"))%string
          else Py.Raise "PDFSyntaxError" "bad page")).
Proof.
  apply (extract_text_page_raises bad_page_world "a.pdf" [Some "abc"]
           (Py.Raise "PDFSyntaxError" "bad page") [inr (Some "e")]).
  reflexivity.
Defined.

(** X3: an exception that leaves [extract_text_from_pdf] has a cause,
    the exception of [pdfplumber.open] or of a page.  When the cause is
    an [Exception], what leaves is a [RuntimeError] whose message is
    ["Error reading PDF: "] followed by the message of the cause; when it
    is not (a [KeyboardInterrupt], a [SystemExit]), the cause itself
    leaves, unwrapped. *)
Theorem extract_text_error (W : World) (pdf_path : string) (e : Py.exn) :
  outcome (extract_text_from_pdf W pdf_path) = inl e ->
  exists cause,
    (pdfplumber_open W pdf_path = inl cause
     \/ exists pages, pdfplumber_open W pdf_path = inr pages
                      /\ In (inl cause) pages)
    /\ ((Py.is_Exception cause = true
         /\ e = Py.RuntimeError ("Error reading PDF: " ++ Py.exn_msg cause)%string)
        \/ (Py.is_Exception cause = false /\ e = cause)).
Proof.
  intros He.
  assert (Hcause : exists cause,
             (pdfplumber_open W pdf_path = inl cause
              \/ exists pages, pdfplumber_open W pdf_path = inr pages
                               /\ In (inl cause) pages)
             /\ e = (if Py.is_Exception cause
                     then Py.RuntimeError
                            ("Error reading PDF: " ++ Py.exn_msg cause)%string
                     else cause)).
  { destruct (pdfplumber_open W pdf_path) as [cause | pages] eqn:Hopen.
    - exists cause. split; [now left |].
      unfold extract_text_from_pdf, call in He. rewrite Hopen in He.
      cbn [bind try_except] in He.
      destruct (Py.is_Exception cause); cbn [bind outcome snd] in He;
        now injection He as <-.
    - destruct (pages_split pages) as [[texts ->] | [texts [cause [rest ->]]]].
      + unfold extract_text_from_pdf, call in He. rewrite Hopen in He.
        cbn [bind] in He. rewrite foreach_extract_kept in He. discriminate He.
      + unfold extract_text_from_pdf, call in He. rewrite Hopen in He.
        cbn [bind] in He. rewrite foreach_extract_raise in He.
        exists cause. split.
        * right. eexists. split; [reflexivity |].
          apply in_or_app. right. now left.
        * cbn [app try_except] in He.
          destruct (Py.is_Exception cause); cbn [bind outcome snd] in He;
            now injection He as <-. }
  destruct Hcause as [cause [Hwhere ->]].
  exists cause. split; [exact Hwhere |].
  destruct (Py.is_Exception cause); [left | right]; now split.
Qed.

Lemma extract_text_error_witness :
  exists cause,
    (pdfplumber_open interrupted_world "a.pdf" = inl cause
     \/ exists pages, pdfplumber_open interrupted_world "a.pdf" = inr pages
                      /\ In (inl cause) pages)
    /\ ((Py.is_Exception cause = true
         /\ Py.Raise "KeyboardInterrupt" ""
            = Py.RuntimeError ("Error reading PDF: " ++ Py.exn_msg cause)%string)
        \/ (Py.is_Exception cause = false
            /\ Py.Raise "KeyboardInterrupt" "" = cause)).
Proof.
  apply (extract_text_error interrupted_world "a.pdf"
           (Py.Raise "KeyboardInterrupt" "")).
  reflexivity.
Defined.

(* ===================================================================== *)
(** ** More on the windows of [tokenize_and_chunk] *)
(* ===================================================================== *)

Lemma firstn_plus {A : Type} (a b : nat) (l : list A) :
  firstn (a + b) l = firstn a l ++ firstn b (skipn a l).
Proof.
  revert l. induction a as [| a IH]; intros l; [reflexivity |].
  destruct l as [| x l]; simpl.
  - now rewrite firstn_nil.
  - now rewrite IH.
Qed.

(** Consecutive blocks of [s] elements make up a prefix. *)
Lemma firstn_blocks {A : Type} (s n : nat) (l : list A) :
  List.concat (map (fun k : nat => firstn s (skipn (k * s) l)) (seq 0 n))
  = firstn (n * s) l.
Proof.
  induction n as [| n IH]; [reflexivity |].
  rewrite seq_S, map_app, concat_app, IH. simpl.
  rewrite app_nil_r, (Nat.add_comm s), firstn_plus. reflexivity.
Qed.

Lemma ceil_div_covers (n s : Z) : 0 < s -> n <= ceil_div n s * s.
Proof.
  intros Hs. unfold ceil_div.
  pose proof (Z.mul_div_le (- n) s Hs). lia.
Qed.

Lemma ceil_div_one (n s : Z) : 0 < n <= s -> ceil_div n s = 1.
Proof.
  intros H. rewrite <- ceil_div_range by lia.
  rewrite Z.div_small by lia. reflexivity.
Qed.

Lemma concat_length_le {A B : Type} (f g : B -> list A) (l : list B) :
  (forall x, (List.length (f x) <= List.length (g x))%nat) ->
  (List.length (List.concat (map f l)) <= List.length (List.concat (map g l)))%nat.
Proof.
  intros Hle. induction l as [| x l IH]; simpl; [lia |].
  rewrite !length_app. specialize (Hle x). lia.
Qed.

(** What a run with a non-zero stride decodes and returns. *)
Lemma run_windows (W : World) (text model : string) (enc : Encoding)
    (tokens : list Z) (chunk_size overlap : Z) :
  tiktoken_get_encoding W model = inr enc ->
  encode enc text = inr tokens ->
  chunk_size - overlap <> 0 ->
  decode_calls (trace (tokenize_and_chunk W text chunk_size overlap model))
  = chunk_windows tokens chunk_size overlap
  /\ outcome (tokenize_and_chunk W text chunk_size overlap model)
     = inr (map (decode enc) (chunk_windows tokens chunk_size overlap)).
Proof.
  intros Henc Htok Hstep.
  rewrite (tokenize_and_chunk_windows W text model enc tokens Henc Htok) by exact Hstep.
  unfold trace, outcome. simpl fst. simpl snd.
  change (decode_calls (EvGetEncoding model :: EvEncode text
                          :: map EvDecode (chunk_windows tokens chunk_size overlap)))
    with (decode_calls (map EvDecode (chunk_windows tokens chunk_size overlap))).
  now rewrite decode_calls_decodes.
Qed.

(** The first [stride] tokens of the windows make up the token list. *)
Lemma chunk_windows_cover (tokens : list Z) (chunk_size overlap : Z) :
  0 < chunk_size ->
  0 <= overlap < chunk_size ->
  List.concat (map (firstn (Z.to_nat (chunk_size - overlap)))
                   (chunk_windows tokens chunk_size overlap))
  = tokens.
Proof.
  intros Hsize Hov.
  rewrite chunk_windows_up by lia. rewrite map_map.
  rewrite (map_ext _ (fun k : nat =>
             firstn (Z.to_nat (chunk_size - overlap))
                    (skipn (k * Z.to_nat (chunk_size - overlap)) tokens))).
  - rewrite firstn_blocks. apply firstn_all2.
    pose proof (ceil_div_covers (Py.len tokens) (chunk_size - overlap)) as Hc.
    pose proof (ceil_div_nonneg (Py.len tokens) (chunk_size - overlap)) as Hn.
    pose proof (len_nonneg tokens). unfold Py.len in *.
    assert (Z.of_nat (Z.to_nat (ceil_div (Z.of_nat (List.length tokens))
                                         (chunk_size - overlap))
                      * Z.to_nat (chunk_size - overlap))
            = ceil_div (Z.of_nat (List.length tokens)) (chunk_size - overlap)
              * (chunk_size - overlap)).
    { rewrite Nat2Z.inj_mul, !Z2Nat.id by lia. reflexivity. }
    lia.
  - intros k. rewrite firstn_firstn. f_equal. lia.
Qed.

(** X4: under a valid configuration no token is lost: the first
    [stride] tokens of each window, put end to end in chunk order, are
    the token list of the text. *)
Theorem windows_cover (W : World) (text model : string) (enc : Encoding)
    (tokens : list Z) (chunk_size overlap : Z) :
  tiktoken_get_encoding W model = inr enc ->
  encode enc text = inr tokens ->
  0 < chunk_size ->
  0 <= overlap < chunk_size ->
  let ws := decode_calls (trace (tokenize_and_chunk W text chunk_size overlap model)) in
  List.concat (map (firstn (Z.to_nat (chunk_size - overlap))) ws) = tokens.
Proof.
  intros Henc Htok Hsize Hov ws. subst ws.
  destruct (run_windows W text model enc tokens chunk_size overlap Henc Htok)
    as [-> _]; [lia |].
  now apply chunk_windows_cover.
Qed.

Lemma windows_cover_witness :
  let ws := decode_calls
              (trace (tokenize_and_chunk ByteLevel.world "abcde" 3 1 default_model)) in
  List.concat (map (firstn (Z.to_nat (3 - 1))) ws) = [97; 98; 99; 100; 101].
Proof.
  apply (windows_cover ByteLevel.world "abcde" default_model ByteLevel.enc
           [97; 98; 99; 100; 101] 3 1);
    [reflexivity | reflexivity | lia | lia].
Defined.

(** X5: with no overlap the windows split the token list: put end to
    end they are the token list of the text, each token in exactly one
    window. *)
Theorem windows_partition (W : World) (text model : string) (enc : Encoding)
    (tokens : list Z) (chunk_size : Z) :
  tiktoken_get_encoding W model = inr enc ->
  encode enc text = inr tokens ->
  0 < chunk_size ->
  List.concat (decode_calls (trace (tokenize_and_chunk W text chunk_size 0 model)))
  = tokens.
Proof.
  intros Henc Htok Hsize.
  destruct (run_windows W text model enc tokens chunk_size 0 Henc Htok)
    as [-> _]; [lia |].
  pose proof (chunk_windows_cover tokens chunk_size 0 Hsize
                (conj (Z.le_refl 0) Hsize)) as Hc.
  etransitivity; [| exact Hc]. f_equal.
  rewrite chunk_windows_up by lia. rewrite map_map.
  apply map_ext. intros k. rewrite firstn_firstn. f_equal. lia.
Qed.

Lemma windows_partition_witness :
  List.concat (decode_calls
            (trace (tokenize_and_chunk ByteLevel.world "abcde" 2 0 default_model)))
  = [97; 98; 99; 100; 101].
Proof.
  apply (windows_partition ByteLevel.world "abcde" default_model ByteLevel.enc
           [97; 98; 99; 100; 101] 2);
    [reflexivity | reflexivity | lia].
Defined.

(** X6: under a valid configuration no window is empty, a window is
    never longer than the one before it, and the last window runs to the
    end of the token list. *)
Theorem windows_shape (W : World) (text model : string) (enc : Encoding)
    (tokens : list Z) (chunk_size overlap : Z) :
  tiktoken_get_encoding W model = inr enc ->
  encode enc text = inr tokens ->
  0 < chunk_size ->
  0 <= overlap < chunk_size ->
  let ws := decode_calls (trace (tokenize_and_chunk W text chunk_size overlap model)) in
  (forall (k : nat) (win : list Z), nth_error ws k = Some win -> 0 < Py.len win)
  /\ (forall (k : nat) (a b : list Z),
        nth_error ws k = Some a -> nth_error ws (S k) = Some b ->
        Py.len b <= Py.len a)
  /\ (forall (k : nat) (win : list Z),
        nth_error ws k = Some win -> S k = List.length ws ->
        win = skipn (k * Z.to_nat (chunk_size - overlap)) tokens).
Proof.
  intros Henc Htok Hsize Hov ws. subst ws.
  destruct (run_windows W text model enc tokens chunk_size overlap Henc Htok)
    as [-> _]; [lia |].
  repeat split.
  - intros k win Hk.
    pose proof (chunk_windows_nth_len tokens chunk_size overlap Hsize Hov k win Hk).
    pose proof (chunk_windows_nth tokens chunk_size overlap Hsize Hov k win Hk) as [Hin _].
    lia.
  - intros k a b Ha Hb.
    pose proof (chunk_windows_nth_len tokens chunk_size overlap Hsize Hov k a Ha) as La.
    pose proof (chunk_windows_nth_len tokens chunk_size overlap Hsize Hov (S k) b Hb) as Lb.
    pose proof (chunk_windows_nth tokens chunk_size overlap Hsize Hov (S k) b Hb) as [Hin _].
    rewrite Nat2Z.inj_succ in Lb, Hin. lia.
  - intros k win Hk Hlast.
    pose proof (chunk_windows_nth tokens chunk_size overlap Hsize Hov k win Hk) as [Hin ->].
    apply firstn_all2. rewrite length_skipn.
    pose proof (chunk_windows_length tokens chunk_size overlap Hsize Hov) as Hlen.
    pose proof (ceil_div_covers (Py.len tokens) (chunk_size - overlap)) as Hc.
    unfold Py.len in *. rewrite <- Hlast in Hlen. rewrite <- Hlen in Hc.
    assert (Z.of_nat (k * Z.to_nat (chunk_size - overlap))
            = Z.of_nat k * (chunk_size - overlap)).
    { rewrite Nat2Z.inj_mul, Z2Nat.id by lia. reflexivity. }
    rewrite Nat2Z.inj_succ in Hc. lia.
Qed.

Lemma windows_shape_witness :
  let ws := decode_calls
              (trace (tokenize_and_chunk ByteLevel.world "abcde" 3 1 default_model)) in
  (forall (k : nat) (win : list Z), nth_error ws k = Some win -> 0 < Py.len win)
  /\ (forall (k : nat) (a b : list Z),
        nth_error ws k = Some a -> nth_error ws (S k) = Some b ->
        Py.len b <= Py.len a)
  /\ (forall (k : nat) (win : list Z),
        nth_error ws k = Some win -> S k = List.length ws ->
        win = skipn (k * Z.to_nat (3 - 1)) [97; 98; 99; 100; 101]).
Proof.
  apply (windows_shape ByteLevel.world "abcde" default_model ByteLevel.enc
           [97; 98; 99; 100; 101] 3 1);
    [reflexivity | reflexivity | lia | lia].
Defined.

(** X7: a text that is not empty and has at most [stride] tokens gives
    one chunk, the decoding of all its tokens, by one decode call. *)
Theorem short_text_one_chunk (W : World) (text model : string) (enc : Encoding)
    (tokens : list Z) (chunk_size overlap : Z) :
  tiktoken_get_encoding W model = inr enc ->
  encode enc text = inr tokens ->
  0 <= overlap ->
  0 < Py.len tokens <= chunk_size - overlap ->
  tokenize_and_chunk W text chunk_size overlap model
  = ([EvGetEncoding model; EvEncode text; EvDecode tokens],
     inr [decode enc tokens]).
Proof.
  intros Henc Htok Hov Hn.
  rewrite (tokenize_and_chunk_windows W text model enc tokens Henc Htok) by lia.
  rewrite chunk_windows_up by lia.
  rewrite ceil_div_one by lia.
  change (seq 0 (Z.to_nat 1)) with [0%nat]. cbn [map Nat.mul skipn].
  rewrite firstn_all2 by (unfold Py.len in Hn; lia).
  reflexivity.
Qed.

Lemma short_text_one_chunk_witness :
  tokenize_and_chunk ByteLevel.world "abcde" 500 50 default_model
  = ([EvGetEncoding default_model; EvEncode "abcde";
      EvDecode [97; 98; 99; 100; 101]],
     inr [decode ByteLevel.enc [97; 98; 99; 100; 101]]).
Proof.
  apply (short_text_one_chunk ByteLevel.world "abcde" default_model ByteLevel.enc
           [97; 98; 99; 100; 101] 500 50);
    [reflexivity | reflexivity | lia | unfold Py.len; simpl; lia].
Defined.

(** X8: a run of [tokenize_and_chunk] that raises has decoded no
    window, and its exception is the one of [tiktoken.get_encoding], the
    one of [enc.encode], or the [ValueError] of [range] when
    [chunk_size = overlap]; none of them is wrapped. *)
Theorem chunker_failure (W : World) (text model : string)
    (chunk_size overlap : Z) (e : Py.exn) :
  outcome (tokenize_and_chunk W text chunk_size overlap model) = inl e ->
  decode_calls (trace (tokenize_and_chunk W text chunk_size overlap model)) = []
  /\ (tiktoken_get_encoding W model = inl e
      \/ (exists enc, tiktoken_get_encoding W model = inr enc
                      /\ encode enc text = inl e)
      \/ (exists enc tokens,
             tiktoken_get_encoding W model = inr enc
             /\ encode enc text = inr tokens
             /\ chunk_size = overlap
             /\ e = Py.ValueError "range() arg 3 must not be zero")).
Proof.
  rewrite tokenize_and_chunk_cases.
  destruct (tiktoken_get_encoding W model) as [e0 | enc] eqn:Henc.
  - intros He. injection He as <-. split; [reflexivity | now left].
  - destruct (encode enc text) as [e0 | tokens] eqn:Htok.
    + intros He. injection He as <-. split; [reflexivity |].
      right. left. now exists enc.
    + destruct (Z.eqb_spec (chunk_size - overlap) 0) as [Hz | Hnz].
      * intros He. injection He as <-. split; [reflexivity |].
        right. right. exists enc, tokens. repeat split; [exact Htok | lia].
      * intros He. discriminate He.
Qed.

Lemma chunker_failure_witness :
  decode_calls (trace (tokenize_and_chunk ByteLevel.world "abcde" 2 2 default_model)) = []
  /\ (tiktoken_get_encoding ByteLevel.world default_model
      = inl (Py.ValueError "range() arg 3 must not be zero")
      \/ (exists enc, tiktoken_get_encoding ByteLevel.world default_model = inr enc
                      /\ encode enc "abcde"
                         = inl (Py.ValueError "range() arg 3 must not be zero"))
      \/ (exists enc tokens,
             tiktoken_get_encoding ByteLevel.world default_model = inr enc
             /\ encode enc "abcde" = inr tokens
             /\ 2 = 2
             /\ Py.ValueError "range() arg 3 must not be zero"
                = Py.ValueError "range() arg 3 must not be zero")).
Proof.
  apply (chunker_failure ByteLevel.world "abcde" default_model 2 2
           (Py.ValueError "range() arg 3 must not be zero")).
  reflexivity.
Defined.

(** X9: with a negative overlap tokens are lost: when the text has more
    than [chunk_size] tokens, the windows together hold fewer tokens than
    the text. *)
Theorem negative_overlap_drops (W : World) (text model : string) (enc : Encoding)
    (tokens : list Z) (chunk_size overlap : Z) :
  tiktoken_get_encoding W model = inr enc ->
  encode enc text = inr tokens ->
  0 < chunk_size ->
  overlap < 0 ->
  chunk_size < Py.len tokens ->
  Py.len (List.concat (decode_calls
                    (trace (tokenize_and_chunk W text chunk_size overlap model))))
  < Py.len tokens.
Proof.
  intros Henc Htok Hsize Hov Hlong.
  destruct (run_windows W text model enc tokens chunk_size overlap Henc Htok)
    as [-> _]; [lia |].
  rewrite chunk_windows_up by lia.
  set (s := Z.to_nat (chunk_size - overlap)).
  set (w := Z.to_nat chunk_size).
  set (n := Z.to_nat (ceil_div (Py.len tokens) (chunk_size - overlap))).
  assert (Hn : (0 < n)%nat).
  { subst n. rewrite <- ceil_div_range by lia.
    pose proof (Z.div_pos (Py.len tokens - 1) (chunk_size - overlap)). lia. }
  assert (Hall : firstn (n * s) tokens = tokens).
  { apply firstn_all2.
    pose proof (ceil_div_covers (Py.len tokens) (chunk_size - overlap)) as Hc.
    pose proof (ceil_div_nonneg (Py.len tokens) (chunk_size - overlap)) as Hnn.
    unfold Py.len in *.
    assert (Z.of_nat (n * s)
            = ceil_div (Z.of_nat (List.length tokens)) (chunk_size - overlap)
              * (chunk_size - overlap)).
    { subst n s. rewrite Nat2Z.inj_mul, !Z2Nat.id by lia. reflexivity. }
    lia. }
  rewrite <- (firstn_blocks s n tokens) in Hall.
  destruct n as [| m]; [lia |].
  pose proof (f_equal (@List.length Z) Hall) as HL.
  change (seq 0 (S m)) with (0%nat :: seq 1 m) in HL |- *.
  cbn [map List.concat Nat.mul skipn] in HL |- *.
  unfold Py.len in Hlong |- *.
  rewrite length_app, length_firstn in HL |- *.
  pose proof (concat_length_le
                (fun k : nat => firstn w (skipn (k * s) tokens))
                (fun k : nat => firstn s (skipn (k * s) tokens))
                (seq 1 m)) as Hrest.
  assert (Hle : forall x : nat,
             (List.length (firstn w (skipn (x * s) tokens))
              <= List.length (firstn s (skipn (x * s) tokens)))%nat).
  { intros x. rewrite !window_length. subst w s. lia. }
  specialize (Hrest Hle).
  subst w s. lia.
Qed.

Lemma negative_overlap_drops_witness :
  Py.len (List.concat (decode_calls
                    (trace (tokenize_and_chunk ByteLevel.world "abcde" 2 (-1)
                              default_model))))
  < Py.len [97; 98; 99; 100; 101].
Proof.
  apply (negative_overlap_drops ByteLevel.world "abcde" default_model ByteLevel.enc
           [97; 98; 99; 100; 101] 2 (-1));
    [reflexivity | reflexivity | lia | lia | unfold Py.len; simpl; lia].
Defined.

(* ===================================================================== *)
(** ** More on the runs of [jsonify] *)
(* ===================================================================== *)

Lemma pdf_opens_app (t1 t2 : list event) :
  pdf_opens (t1 ++ t2) = pdf_opens t1 ++ pdf_opens t2.
Proof. unfold pdf_opens. apply flat_map_app. Qed.

Lemma pdf_opens_decodes (ws : list (list Z)) : pdf_opens (map EvDecode ws) = [].
Proof. induction ws as [| w ws IH]; [reflexivity | exact IH]. Qed.

Lemma output_calls_no_output (tr : list event) :
  no_output tr -> output_calls tr = [].
Proof.
  unfold output_calls. induction tr as [| ev tr IH]; intros H; [reflexivity |].
  simpl. rewrite (H ev (or_introl eq_refl)). apply IH.
  intros x Hx. apply H. now right.
Qed.

Section MoreRuns.

Variable W : World.
Variables chunk_size overlap : Z.

Lemma tokenize_and_chunk_opens (text model : string) :
  pdf_opens (trace (tokenize_and_chunk W text chunk_size overlap model)) = [].
Proof.
  rewrite tokenize_and_chunk_cases.
  destruct (tiktoken_get_encoding W model) as [e | enc]; [reflexivity |].
  destruct (encode enc text) as [e | tokens]; [reflexivity |].
  destruct (chunk_size - overlap =? 0); [reflexivity |].
  unfold trace. cbn [fst]. rewrite pdf_opens_app, pdf_opens_decodes. reflexivity.
Qed.

(** Processing one document opens that document and no other. *)
Lemma document_chunks_opens (pdf_path : string) :
  pdf_opens (trace (document_chunks W chunk_size overlap pdf_path)) = [pdf_path].
Proof.
  unfold document_chunks.
  pose proof (extract_text_trace W pdf_path) as Htr.
  destruct (extract_text_from_pdf W pdf_path) as [tr [e | full_text]];
    unfold trace in *; cbn [fst bind] in *; subst tr; [reflexivity |].
  pose proof (tokenize_and_chunk_opens full_text default_model) as Hno.
  destruct (tokenize_and_chunk W full_text chunk_size overlap default_model)
    as [tr' r]. unfold trace in Hno. cbn [fst] in *.
  now rewrite pdf_opens_app, Hno.
Qed.

Lemma foreach_documents_opens_ok (paths : list string) (data : list chunk_record) :
  (forall p, In p paths ->
             exists chunks, outcome (document_chunks W chunk_size overlap p) = inr chunks) ->
  pdf_opens (trace (foreach paths data (jsonify_step W chunk_size overlap))) = paths.
Proof.
  revert data. induction paths as [| p paths IH]; intros data Hok; [reflexivity |].
  destruct (Hok p (or_introl eq_refl)) as [chunks Hp].
  cbn [foreach]. rewrite jsonify_step_document.
  pose proof (document_chunks_opens p) as Hop.
  destruct (document_chunks W chunk_size overlap p) as [tr1 r1].
  unfold outcome, trace in *. cbn [fst snd] in *. subst r1. cbn [bind ret].
  rewrite app_nil_r.
  specialize (IH (data ++ map (mkRecord (label_of W p)) chunks)
                 (fun q Hq => Hok q (or_intror Hq))).
  destruct (foreach paths (data ++ map (mkRecord (label_of W p)) chunks)
              (jsonify_step W chunk_size overlap)) as [tr2 r2].
  cbn [fst] in *. now rewrite pdf_opens_app, Hop, IH.
Qed.

Lemma foreach_documents_opens_raise (pre post : list string) (p : string)
    (e : Py.exn) (data : list chunk_record) :
  (forall q, In q pre ->
             exists chunks, outcome (document_chunks W chunk_size overlap q) = inr chunks) ->
  outcome (document_chunks W chunk_size overlap p) = inl e ->
  pdf_opens (trace (foreach (pre ++ p :: post) data (jsonify_step W chunk_size overlap)))
  = pre ++ [p].
Proof.
  revert data. induction pre as [| q pre IH]; intros data Hok Hp.
  - cbn [app foreach]. rewrite jsonify_step_document.
    pose proof (document_chunks_opens p) as Hop.
    destruct (document_chunks W chunk_size overlap p) as [tr1 r1].
    unfold outcome, trace in *. cbn [fst snd] in *. subst r1. exact Hop.
  - destruct (Hok q (or_introl eq_refl)) as [chunks Hq].
    cbn [app foreach]. rewrite jsonify_step_document.
    pose proof (document_chunks_opens q) as Hop.
    destruct (document_chunks W chunk_size overlap q) as [tr1 r1].
    unfold outcome, trace in Hq, Hop |- *. cbn [fst snd] in Hq, Hop |- *.
    subst r1. cbn [bind ret]. rewrite app_nil_r.
    specialize (IH (data ++ map (mkRecord (label_of W q)) chunks)
                   (fun x Hx => Hok x (or_intror Hx)) Hp).
    destruct (foreach (pre ++ p :: post)
                (data ++ map (mkRecord (label_of W q)) chunks)
                (jsonify_step W chunk_size overlap)) as [tr2 r2].
    unfold trace in IH. cbn [fst] in *. now rewrite pdf_opens_app, Hop, IH.
Qed.

(** The calls that follow the loop open no document. *)
Lemma jsonify_opens (paths : list string) (output_filename : string) :
  pdf_opens (trace (jsonify W paths chunk_size overlap output_filename))
  = pdf_opens (trace (foreach paths [] (jsonify_step W chunk_size overlap))).
Proof.
  unfold jsonify.
  destruct (foreach paths [] (jsonify_step W chunk_size overlap)) as [tr [e | data]];
    [reflexivity |].
  cbv zeta.
  assert (Hend : forall (tail : list event) (r : Py.exn + Py.value),
             pdf_opens tail = [] -> pdf_opens (trace (tr ++ tail, r)) = pdf_opens tr).
  { intros tail r Htail. unfold trace. cbn [fst].
    now rewrite pdf_opens_app, Htail, app_nil_r. }
  destruct (open_w W _); cbn [bind call ret returns_nothing];
    [now apply Hend |].
  destruct (json_dump W _ _); cbn [bind call ret returns_nothing app];
    [now apply Hend |].
  destruct (print_stdout W _); cbn [bind call ret returns_nothing app];
    now apply Hend.
Qed.

(** With [overlap > chunk_size] a document has no chunk. *)
Lemma chunks_of_negative_stride (pdf_path : string) :
  chunk_size < overlap -> chunks_of W chunk_size overlap pdf_path = [].
Proof.
  intros Hov. unfold chunks_of, document_chunks.
  destruct (extract_text_from_pdf W pdf_path) as [tr [e | full_text]];
    [reflexivity |].
  cbn [bind]. rewrite tokenize_and_chunk_cases.
  destruct (tiktoken_get_encoding W default_model) as [e | enc]; [reflexivity |].
  destruct (encode enc full_text) as [e | tokens]; [reflexivity |].
  destruct (Z.eqb_spec (chunk_size - overlap) 0) as [? | _]; [lia |].
  rewrite chunk_windows_down by exact Hov. reflexivity.
Qed.

(** With [overlap = chunk_size] no document is processed to the end. *)
Lemma document_chunks_zero_stride (pdf_path : string) (chunks : list string) :
  chunk_size = overlap ->
  outcome (document_chunks W chunk_size overlap pdf_path) <> inr chunks.
Proof.
  intros Heq. unfold document_chunks.
  destruct (extract_text_from_pdf W pdf_path) as [tr [e | full_text]];
    [discriminate |].
  cbn [bind]. rewrite tokenize_and_chunk_cases.
  destruct (tiktoken_get_encoding W default_model) as [e | enc]; [discriminate |].
  destruct (encode enc full_text) as [e | tokens]; [discriminate |].
  destruct (Z.eqb_spec (chunk_size - overlap) 0) as [_ | ?]; [discriminate | lia].
Qed.

End MoreRuns.

(** X10: [jsonify] opens the documents one at a time in list order:
    when every document is processed without an exception all of them
    are opened, each once; when one raises, the documents up to and
    including the first that raises are opened and the ones after it
    never are. *)
Theorem documents_opened_in_order (W : World) (paths : list string)
    (chunk_size overlap : Z) (output_filename : string) :
  let run := jsonify W paths chunk_size overlap output_filename in
  ((forall p, In p paths ->
      exists chunks, outcome (document_chunks W chunk_size overlap p) = inr chunks) ->
   pdf_opens (trace run) = paths)
  /\ (forall pre p post e,
        paths = pre ++ p :: post ->
        (forall q, In q pre ->
           exists chunks, outcome (document_chunks W chunk_size overlap q) = inr chunks) ->
        outcome (document_chunks W chunk_size overlap p) = inl e ->
        pdf_opens (trace run) = pre ++ [p]).
Proof.
  intros run. subst run. rewrite jsonify_opens. split.
  - intros Hall. now apply foreach_documents_opens_ok.
  - intros pre p post e -> Hpre Hp.
    now apply foreach_documents_opens_raise with (e := e).
Qed.

Lemma documents_opened_in_order_witness :
  pdf_opens (trace (jsonify ByteLevel.world
                      ["C:\books\abcde.pdf"; "missing.pdf"; "x/scan.PDF"]
                      3 1 "out.json"))
  = ["C:\books\abcde.pdf"] ++ ["missing.pdf"].
Proof.
  destruct (documents_opened_in_order ByteLevel.world
              ["C:\books\abcde.pdf"; "missing.pdf"; "x/scan.PDF"] 3 1 "out.json")
    as [_ Hraise].
  apply (Hraise ["C:\books\abcde.pdf"] "missing.pdf" ["x/scan.PDF"]
           (Py.RuntimeError "Error reading PDF: No such file or directory")).
  - reflexivity.
  - intros q [<- | []]. eexists. reflexivity.
  - reflexivity.
Defined.

(** X11: batches compose: when [jsonify] calls [json.dump] with [d1]
    for the documents [paths1] and with [d2] for [paths2], it calls it
    with [d1 ++ d2] for [paths1 ++ paths2] under the same parameters. *)
Theorem batches_compose (W : World) (paths1 paths2 : list string)
    (chunk_size overlap : Z) (output_filename path : string)
    (d1 d2 : list chunk_record) :
  In (EvJsonDump path d1)
     (trace (jsonify W paths1 chunk_size overlap output_filename)) ->
  In (EvJsonDump path d2)
     (trace (jsonify W paths2 chunk_size overlap output_filename)) ->
  In (EvJsonDump path (d1 ++ d2))
     (trace (jsonify W (paths1 ++ paths2) chunk_size overlap output_filename)).
Proof.
  intros H1 H2.
  apply dumped_data in H1. destruct H1 as [-> [-> [Hopen Hall1]]].
  apply dumped_data in H2. destruct H2 as [_ [-> [_ Hall2]]].
  assert (Hall : forall p, In p (paths1 ++ paths2) ->
                 exists chunks,
                   outcome (document_chunks W chunk_size overlap p) = inr chunks).
  { intros p Hp. apply in_app_or in Hp. destruct Hp; auto. }
  rewrite <- flat_map_app.
  destruct (jsonify_cases W chunk_size overlap (paths1 ++ paths2) output_filename)
    as [[tr [e [_ [_ [pre [p [post [Hsplit [_ Hp]]]]]]]]]
       | [[tr [e [_ [_ [Hfail _]]]]] | [[tr [e [E _]]]
       | [[tr [e [E _]]] | [tr [E _]]]]]].
  - destruct (Hall p) as [chunks Hc]; [rewrite Hsplit; apply in_elt | congruence].
  - congruence.
  - rewrite E. unfold trace. cbn [fst]. apply in_or_app. right. right. now left.
  - rewrite E. unfold trace. cbn [fst]. apply in_or_app. right. right. now left.
  - rewrite E. unfold trace. cbn [fst]. apply in_or_app. right. right. now left.
Qed.

Lemma batches_compose_witness :
  In (EvJsonDump (output_path_of "out.json")
        ([mkRecord "abcde" "abc"; mkRecord "abcde" ("c" ++ newline ++ "e");
          mkRecord "abcde" "e"] ++ [mkRecord "scan.PDF" "ab"]))
     (trace (jsonify ByteLevel.world (["C:\books\abcde.pdf"] ++ ["x/scan.PDF"])
               3 1 "out.json")).
Proof.
  apply (batches_compose ByteLevel.world ["C:\books\abcde.pdf"] ["x/scan.PDF"]
           3 1 "out.json" (output_path_of "out.json"));
    vm_compute; tauto.
Defined.

(** X12: when every document is processed and the output file cannot
    be opened, [jsonify] raises the exception of [open] after all the
    documents have been opened and chunked; nothing is dumped or printed,
    the only output call is the failed [open]. *)
Theorem open_failure (W : World) (paths : list string)
    (chunk_size overlap : Z) (output_filename : string) (e : Py.exn) :
  (forall p, In p paths ->
     exists chunks, outcome (document_chunks W chunk_size overlap p) = inr chunks) ->
  open_w W (OUTPUT_DIR ++ backslash ++ output_filename) = Some e ->
  let run := jsonify W paths chunk_size overlap output_filename in
  outcome run = inl e
  /\ output_calls (trace run)
     = [EvOpenWrite (OUTPUT_DIR ++ backslash ++ output_filename)]
  /\ pdf_opens (trace run) = paths
  /\ List.length (decode_calls (trace run))
     = List.length (flat_map (doc_records W chunk_size overlap) paths).
Proof.
  intros Hall Hopen run. subst run.
  fold (output_path_of output_filename) in *.
  pose proof (foreach_documents_opens_ok W chunk_size overlap paths [] Hall) as Hopens.
  rewrite <- jsonify_opens with (output_filename := output_filename) in Hopens.
  destruct (foreach_documents_ok W chunk_size overlap paths [] Hall)
    as [tr [E [Hno Hdec]]].
  assert (Erun : jsonify W paths chunk_size overlap output_filename
                 = (tr ++ [EvOpenWrite (output_path_of output_filename)], inl e)).
  { unfold jsonify. rewrite E. fold (output_path_of output_filename).
    rewrite Hopen. reflexivity. }
  rewrite Erun in Hopens |- *. unfold outcome, trace in *. cbn [fst snd] in *.
  repeat split.
  - unfold output_calls. rewrite filter_app.
    fold (output_calls tr). now rewrite output_calls_no_output.
  - exact Hopens.
  - rewrite decode_calls_app. cbn. now rewrite app_nil_r.
Qed.

Lemma open_failure_witness :
  let run := jsonify read_only_world ["a.pdf"; "b.pdf"] 3 1 "out.json" in
  outcome run = inl (Py.Raise "PermissionError" "Permission denied")
  /\ output_calls (trace run)
     = [EvOpenWrite (OUTPUT_DIR ++ backslash ++ "out.json")]
  /\ pdf_opens (trace run) = ["a.pdf"; "b.pdf"]
  /\ List.length (decode_calls (trace run))
     = List.length (flat_map (doc_records read_only_world 3 1) ["a.pdf"; "b.pdf"]).
Proof.
  apply (open_failure read_only_world ["a.pdf"; "b.pdf"] 3 1 "out.json"
           (Py.Raise "PermissionError" "Permission denied")).
  - intros p _. eexists. reflexivity.
  - reflexivity.
Defined.

(** X13: an empty batch still opens and fills the file: whatever the
    chunking parameters, valid or not, [jsonify] on no path opens the
    output file and, when that succeeds, dumps the empty collection and
    then reports 0 chunks; it raises what [json.dump] or [print] raises
    and returns [None] otherwise. *)
Theorem empty_batch (W : World) (chunk_size overlap : Z) (output_filename : string) :
  open_w W (OUTPUT_DIR ++ backslash ++ output_filename) = None ->
  jsonify W [] chunk_size overlap output_filename
  = match json_dump W (OUTPUT_DIR ++ backslash ++ output_filename) [] with
    | Some e =>
        ([EvOpenWrite (OUTPUT_DIR ++ backslash ++ output_filename);
          EvJsonDump (OUTPUT_DIR ++ backslash ++ output_filename) []],
         inl e)
    | None =>
        ([EvOpenWrite (OUTPUT_DIR ++ backslash ++ output_filename);
          EvJsonDump (OUTPUT_DIR ++ backslash ++ output_filename) [];
          EvPrint (saved_message output_filename 0)],
         match print_stdout W (saved_message output_filename 0) with
         | Some e => inl e
         | None => inr Py.None_
         end)
    end.
Proof.
  intros Hopen. unfold jsonify. cbn [foreach bind ret app]. cbv zeta.
  rewrite Hopen. cbn [bind call ret app returns_nothing].
  destruct (json_dump W _ _); [reflexivity |].
  cbn [bind call ret app returns_nothing].
  change (check_mark ++ " JSON saved at "
          ++ (OUTPUT_DIR ++ backslash ++ output_filename)
          ++ " with " ++ Py.str_of_int (Py.len (@nil chunk_record))
          ++ " chunks.")%string
    with (saved_message output_filename 0).
  destruct (print_stdout W _); reflexivity.
Qed.

Lemma empty_batch_witness :
  jsonify cp1252_world [] 2 2 "out.json"
  = match json_dump cp1252_world (OUTPUT_DIR ++ backslash ++ "out.json") [] with
    | Some e =>
        ([EvOpenWrite (OUTPUT_DIR ++ backslash ++ "out.json");
          EvJsonDump (OUTPUT_DIR ++ backslash ++ "out.json") []],
         inl e)
    | None =>
        ([EvOpenWrite (OUTPUT_DIR ++ backslash ++ "out.json");
          EvJsonDump (OUTPUT_DIR ++ backslash ++ "out.json") [];
          EvPrint (saved_message "out.json" 0)],
         match print_stdout cp1252_world (saved_message "out.json" 0) with
         | Some e => inl e
         | None => inr Py.None_
         end)
    end.
Proof.
  apply (empty_batch cp1252_world 2 2 "out.json"). reflexivity.
Defined.

(** X14: with [overlap > chunk_size] no chunk is kept: whatever
    collection [jsonify] hands to [json.dump] is empty. *)
Theorem negative_stride_dumps_nothing (W : World) (paths : list string)
    (chunk_size overlap : Z) (output_filename path : string)
    (data : list chunk_record) :
  chunk_size < overlap ->
  In (EvJsonDump path data)
     (trace (jsonify W paths chunk_size overlap output_filename)) ->
  data = [].
Proof.
  intros Hov Hin. apply dumped_data in Hin.
  destruct Hin as [_ [-> _]].
  induction paths as [| p paths IH]; [reflexivity |].
  cbn [flat_map]. rewrite IH. unfold doc_records.
  now rewrite chunks_of_negative_stride.
Qed.

Lemma negative_stride_dumps_nothing_witness :
  In (EvJsonDump (output_path_of "out.json") [])
     (trace (jsonify ByteLevel.world ["C:\books\abcde.pdf"; "x/scan.PDF"]
               2 3 "out.json"))
  /\ @nil chunk_record = [].
Proof.
  assert (Hin : In (EvJsonDump (output_path_of "out.json") [])
                   (trace (jsonify ByteLevel.world
                             ["C:\books\abcde.pdf"; "x/scan.PDF"] 2 3 "out.json")))
    by (vm_compute; tauto).
  split; [exact Hin |].
  apply (negative_stride_dumps_nothing ByteLevel.world
           ["C:\books\abcde.pdf"; "x/scan.PDF"] 2 3 "out.json"
           (output_path_of "out.json") []);
    [lia | exact Hin].
Defined.

(** X15: with [overlap = chunk_size] every batch that is not empty
    fails: [jsonify] raises, and no output file is opened, dumped to or
    reported. *)
Theorem zero_stride_batch_fails (W : World) (paths : list string)
    (chunk_size : Z) (output_filename : string) :
  paths <> [] ->
  let run := jsonify W paths chunk_size chunk_size output_filename in
  (exists e, outcome run = inl e)
  /\ no_output (trace run)
  /\ List.length (pdf_opens (trace run)) = 1%nat.
Proof.
  intros Hne run. subst run.
  destruct paths as [| p0 paths]; [congruence |].
  assert (Hfirst : exists e,
             outcome (document_chunks W chunk_size chunk_size p0) = inl e).
  { destruct (outcome (document_chunks W chunk_size chunk_size p0))
      as [e | chunks] eqn:H0; [now exists e |].
    now apply document_chunks_zero_stride in H0. }
  destruct Hfirst as [e He].
  destruct (foreach_documents_raise W chunk_size chunk_size [] paths p0 e [])
    as [tr [E Hno]]; [intros q [] | exact He |].
  pose proof (foreach_documents_opens_raise W chunk_size chunk_size [] paths p0 e [])
    as Hop.
  cbn [app] in E, Hop.
  rewrite jsonify_opens, Hop; [| intros q [] | exact He].
  unfold jsonify. rewrite E. unfold outcome, trace. cbn [bind fst snd].
  split; [now exists e | split; [exact Hno | reflexivity]].
Qed.

Lemma zero_stride_batch_fails_witness :
  let run := jsonify ByteLevel.world ["C:\books\abcde.pdf"; "x/scan.PDF"]
               2 2 "out.json" in
  (exists e, outcome run = inl e)
  /\ no_output (trace run)
  /\ List.length (pdf_opens (trace run)) = 1%nat.
Proof.
  apply (zero_stride_batch_fails ByteLevel.world
           ["C:\books\abcde.pdf"; "x/scan.PDF"] 2 "out.json").
  discriminate.
Defined.

(** X16: a document none of whose pages has text adds no record: its
    extracted text is empty, and when the empty text encodes to no token
    and [chunk_size <> overlap], it is chunked into nothing, without a
    decode call. *)
Theorem blank_document (W : World) (pdf_path : string)
    (texts : list (option string)) (enc : Encoding) (chunk_size overlap : Z) :
  pdfplumber_open W pdf_path = inr (map inr texts) ->
  kept_texts texts = [] ->
  tiktoken_get_encoding W default_model = inr enc ->
  encode enc "" = inr [] ->
  chunk_size <> overlap ->
  document_chunks W chunk_size overlap pdf_path
  = ([EvPdfOpen pdf_path; EvGetEncoding default_model; EvEncode ""], inr [])
  /\ doc_records W chunk_size overlap pdf_path = [].
Proof.
  intros Hopen Hkept Henc Htok Hne.
  assert (E : document_chunks W chunk_size overlap pdf_path
              = ([EvPdfOpen pdf_path; EvGetEncoding default_model; EvEncode ""],
                 inr [])).
  { unfold document_chunks.
    unfold extract_text_from_pdf, call. rewrite Hopen.
    cbn [bind]. rewrite foreach_extract_kept, Hkept.
    cbn [try_except bind ret app Py.join].
    rewrite (tokenize_and_chunk_windows W "" default_model enc [] Henc Htok) by lia.
    assert (Hw : chunk_windows [] chunk_size overlap = []).
    { unfold chunk_windows, Py.range, Py.range_length.
      destruct (chunk_size - overlap =? 0); [reflexivity |].
      destruct (0 <? chunk_size - overlap); reflexivity. }
    rewrite Hw. reflexivity. }
  split; [exact E |].
  unfold doc_records, chunks_of. rewrite E. reflexivity.
Qed.

Lemma blank_document_witness :
  document_chunks ByteLevel.world 500 50 "empty.pdf"
  = ([EvPdfOpen "empty.pdf"; EvGetEncoding default_model; EvEncode ""], inr [])
  /\ doc_records ByteLevel.world 500 50 "empty.pdf" = [].
Proof.
  apply (blank_document ByteLevel.world "empty.pdf" [None; Some ""] ByteLevel.enc
           500 50);
    [reflexivity | reflexivity | reflexivity | reflexivity | lia].
Defined.

(** X17: running the module (line 99), when [os.path.basename] gives
    the three file names of lines 95 to 97 for their paths: what is
    handed to [json.dump] goes to [fitness_books.json] in the fixed
    directory and is the chunks of the three books in order, each under
    the title of its file without [.pdf]. *)
Theorem main_collection (W : World) (path : string) (data : list chunk_record) :
  os_path_basename W pdf1
  = "Beyond Bigger Leaner Stronger - Michael Matthews.pdf" ->
  os_path_basename W pdf2 = "The Lean Muscle Diet PDF.pdf" ->
  os_path_basename W pdf3 = "Science_fitness_book.pdf" ->
  In (EvJsonDump path data) (trace (main W)) ->
  path = (OUTPUT_DIR ++ backslash ++ "fitness_books.json")%string
  /\ data
     = map (mkRecord "Beyond Bigger Leaner Stronger - Michael Matthews")
           (chunks_of W 500 50 pdf1)
       ++ map (mkRecord "The Lean Muscle Diet PDF") (chunks_of W 500 50 pdf2)
       ++ map (mkRecord "Science_fitness_book") (chunks_of W 500 50 pdf3).
Proof.
  intros H1 H2 H3 Hin. unfold main in Hin. apply dumped_data in Hin.
  destruct Hin as [-> [-> _]]. split; [reflexivity |].
  cbn [flat_map]. unfold doc_records, label_of. rewrite H1, H2, H3, app_nil_r.
  reflexivity.
Qed.

Lemma main_collection_witness :
  (OUTPUT_DIR ++ backslash ++ "fitness_books.json")%string
  = (OUTPUT_DIR ++ backslash ++ "fitness_books.json")%string
  /\ [mkRecord "Beyond Bigger Leaner Stronger - Michael Matthews" "abcde";
      mkRecord "The Lean Muscle Diet PDF" "abcde";
      mkRecord "Science_fitness_book" "abcde"]
     = map (mkRecord "Beyond Bigger Leaner Stronger - Michael Matthews")
           (chunks_of one_page_world 500 50 pdf1)
       ++ map (mkRecord "The Lean Muscle Diet PDF")
              (chunks_of one_page_world 500 50 pdf2)
       ++ map (mkRecord "Science_fitness_book")
              (chunks_of one_page_world 500 50 pdf3).
Proof.
  apply (main_collection one_page_world).
  - reflexivity.
  - reflexivity.
  - reflexivity.
  - vm_compute. tauto.
Defined.

(** X18: a failure after the file is opened leaves a file behind: when
    every document is processed and the file opens, an exception of
    [json.dump] leaves [jsonify] with the file opened and [print] not
    called, and an exception of [print] leaves it after the whole
    collection has been dumped. *)
Theorem output_failure (W : World) (paths : list string)
    (chunk_size overlap : Z) (output_filename : string) (e : Py.exn) :
  (forall p, In p paths ->
     exists chunks, outcome (document_chunks W chunk_size overlap p) = inr chunks) ->
  open_w W (OUTPUT_DIR ++ backslash ++ output_filename) = None ->
  let run := jsonify W paths chunk_size overlap output_filename in
  let path := (OUTPUT_DIR ++ backslash ++ output_filename)%string in
  let data := flat_map (doc_records W chunk_size overlap) paths in
  (json_dump W path data = Some e ->
   outcome run = inl e
   /\ output_calls (trace run) = [EvOpenWrite path; EvJsonDump path data])
  /\ (json_dump W path data = None ->
      print_stdout W (saved_message output_filename (Py.len data)) = Some e ->
      outcome run = inl e
      /\ output_calls (trace run)
         = [EvOpenWrite path; EvJsonDump path data;
            EvPrint (saved_message output_filename (Py.len data))]).
Proof.
  intros Hall Hopen run path data. subst run path data.
  fold (output_path_of output_filename) in *.
  assert (Hcalls : forall tr tail,
             no_output tr -> forallb is_output tail = true ->
             output_calls (tr ++ tail) = tail).
  { intros tr tail Hno Htail. unfold output_calls. rewrite filter_app.
    fold (output_calls tr). rewrite (output_calls_no_output tr Hno).
    cbn [app]. induction tail as [| ev tail IH]; [reflexivity |].
    cbn [forallb] in Htail. apply andb_prop in Htail. destruct Htail as [Hev Ht].
    cbn [filter]. rewrite Hev. f_equal. now apply IH. }
  destruct (jsonify_after_loop W chunk_size overlap paths output_filename Hall)
    as [tr [Hno [_ Erun]]].
  cbv zeta in Erun. rewrite Erun, Hopen. clear Erun.
  split.
  - intros Hd. rewrite Hd. unfold outcome, trace. cbn [fst snd].
    split; [reflexivity | now apply Hcalls].
  - intros Hd Hpr. rewrite Hd, Hpr. unfold outcome, trace. cbn [fst snd].
    split; [reflexivity | now apply Hcalls].
Qed.

Lemma output_failure_witness :
  let run := jsonify cp1252_world ["a.pdf"] 500 50 "out.json" in
  let path := (OUTPUT_DIR ++ backslash ++ "out.json")%string in
  let data := flat_map (doc_records cp1252_world 500 50) ["a.pdf"] in
  outcome run
  = inl (Py.Raise "UnicodeEncodeError" "'charmap' codec can't encode character")
  /\ output_calls (trace run)
     = [EvOpenWrite path; EvJsonDump path data;
        EvPrint (saved_message "out.json" (Py.len data))].
Proof.
  destruct (output_failure cp1252_world ["a.pdf"] 500 50 "out.json"
              (Py.Raise "UnicodeEncodeError"
                 "'charmap' codec can't encode character"))
    as [_ Hprint].
  - intros p _. eexists. reflexivity.
  - reflexivity.
  - apply Hprint; reflexivity.
Defined.
